(** * Resilient request delivery: failover client and forwarding gateway

    A shallow embedding of the two stateful parts of the repository:

    - [api-connection-utils.js]: endpoint selection, the failover
      procedure, the liveness probe and the retrying generation call
      (module [Client]);
    - [ollama-proxy.js]: the sliding-window rate limiter and the
      [POST /api/generate] handler with its error mapping (module [Proxy]).

    JavaScript values that the code only tests for truthiness are kept as
    [js_value]; the browser (session storage, status elements, toasts,
    issued fetches) and the gateway (the [requestTracking] map) are explicit
    states threaded through the functions. *)

From stdpp Require Import base numbers strings list gmap.
From Stdlib Require Import ZArith QArith Lia.

Local Close Scope Q_scope.
Local Open Scope string_scope.
Local Open Scope list_scope.

(** ** JavaScript values and truthiness *)

Module Js.

(** The values the two files hand to [!] and [||].  Numbers only occur as
    literals and under a zero test, so a rational stands for the double. *)
Inductive js_value :=
| JsUndefined
| JsNull
| JsBool (b : bool)
| JsNum (q : Q)
| JsNaN
| JsStr (s : string)
| JsObject.

Definition string_nonempty (s : string) : bool :=
  match s with
  | EmptyString => false
  | String _ _ => true
  end.

(** ToBoolean. *)
Definition truthy (v : js_value) : bool :=
  match v with
  | JsUndefined => false
  | JsNull => false
  | JsBool b => b
  | JsNum q => negb (Qnum q =? 0)%Z
  | JsNaN => false
  | JsStr s => string_nonempty s
  | JsObject => true
  end.

(** [a || b]. *)
Definition js_or (a b : js_value) : js_value :=
  if truthy a then a else b.

(** [s || d] for an optional string: a missing or empty one gives [d]. *)
Definition str_or (s : option string) (d : string) : string :=
  match s with
  | Some v => if string_nonempty v then v else d
  | None => d
  end.

(** Own string properties of an object literal, in insertion order. *)
Definition js_object := list (string * string).

Fixpoint own_property (o : js_object) (k : string) : option string :=
  match o with
  | [] => None
  | (k', v) :: rest => if String.eqb k' k then Some v else own_property rest k
  end.

(** [Object.values(o)]. *)
Definition Object_values (o : js_object) : list string := List.map snd o.

(** [Object.keys(o)]. *)
Definition Object_keys (o : js_object) : list string := List.map fst o.

(** Properties every object literal inherits from [Object.prototype]. *)
Definition Object_prototype : list string :=
  [ "constructor"; "hasOwnProperty"; "isPrototypeOf"; "propertyIsEnumerable";
    "toLocaleString"; "toString"; "valueOf"; "__proto__";
    "__defineGetter__"; "__defineSetter__";
    "__lookupGetter__"; "__lookupSetter__" ].

(** The result of [o[k]]: an own string, something inherited through the
    prototype chain (a function or the prototype itself), or [undefined]. *)
Inductive property :=
| OwnValue (v : string)
| Inherited (k : string)
| Absent.

Definition get_property (o : js_object) (k : string) : property :=
  match own_property o k with
  | Some v => OwnValue v
  | None =>
      if existsb (String.eqb k) Object_prototype then Inherited k else Absent
  end.

Definition property_truthy (p : property) : bool :=
  match p with
  | OwnValue v => string_nonempty v
  | Inherited _ => true
  | Absent => false
  end.

End Js.

Import Js.

(** ** The forwarding gateway ([ollama-proxy.js]) *)

Module Proxy.

(** [process.env], as far as the file reads it. *)
Record environment := {
  OLLAMA_API_LOCAL : option string;
  OLLAMA_API_PRODUCTION : option string;
  OLLAMA_API_KEY : option string;
  NODE_ENV : option string
}.

Definition API_ENDPOINTS (env : environment) : js_object :=
  [ ("local", str_or (OLLAMA_API_LOCAL env)
                "http://192.168.1.50:11434/api/generate");
    ("production", str_or (OLLAMA_API_PRODUCTION env)
                     "https://ollama.mhrpci.site/api/generate") ].

Definition DEFAULT_ENDPOINT (env : environment) : string :=
  match NODE_ENV env with
  | Some e => if String.eqb e "production" then "production" else "local"
  | None => "local"
  end.

Record rate_limit := { windowMs : Z; maxRequests : nat }.

Definition RATE_LIMIT : rate_limit :=
  {| windowMs := 60 * 1000; maxRequests := 20 |}.

(** [requestTracking]: client address to the timestamps of its requests. *)
Abbreviation tracking := (gmap string (list Z)).

(** *** Requests and responses *)

(** [req.body] after [express.json()]; an absent property is [JsUndefined]. *)
Record generation_body := {
  model : js_value;
  prompt : js_value;
  stream : js_value;
  options : js_value
}.

(** Where Express takes a request: the preflight answer of [cors()], one
    of the three registered routes, or none of them. *)
Inductive destination :=
| Preflight
| GetHealth
| GetInfo
| PostGenerate
| Unrouted.

Record request := {
  matched : destination;
  ip : string;
  query_endpoint : option string;   (* [req.query.endpoint] *)
  body : generation_body
}.

(** What an upstream sends back: [data] is [null]/[undefined] or an object
    whose [error] property and remaining payload are kept. *)
Inductive upstream_data :=
| NoData
| Data (error : js_value) (rest : string).

Record upstream_response := { up_status : nat; up_data : upstream_data }.

Inductive json_body :=
| ErrorJson (error : string) (message : js_value) (status : option nat)
| UpstreamJson (d : upstream_data)
| HealthJson (status : string) (environment : string)
| InfoJson (name version : string) (endpoints : list string) (rl : rate_limit)
| NotFound
| NoContent.

Record response := { code : nat; json : json_body }.

(** *** Rate limiting middleware *)

Definition stored (t : tracking) (clientIp : string) : list Z :=
  default [] (t !! clientIp).

Definition in_window (rl : rate_limit) (now : Z) (requests : list Z) : list Z :=
  let windowStart := (now - windowMs rl)%Z in
  List.filter (fun timestamp => (windowStart <? timestamp)%Z) requests.

Definition too_many_requests : response :=
  {| code := 429;
     json := ErrorJson "Too many requests" (JsStr "Please try again later") None |}.

(** The middleware: [inl r] answers the request with [r], [inr tt] is
    [next()]. *)
Definition rateLimiter (rl : rate_limit) (t : tracking) (clientIp : string)
    (now : Z) : (response + unit) * tracking :=
  let t :=
    match t !! clientIp with
    | Some _ => t
    | None => <[clientIp := []]> t
    end in
  let requests := stored t clientIp in
  let requests := in_window rl now requests in
  if (maxRequests rl <=? List.length requests)%nat
  then (inl too_many_requests, t)
  else (inr tt, <[clientIp := requests ++ [now]]> t).

Definition admitted (r : (response + unit) * tracking) : bool :=
  match fst r with
  | inl _ => false
  | inr _ => true
  end.

(** A client sending requests at the given instants, one after the other;
    the verdicts are returned oldest first. *)
Fixpoint requests_at (rl : rate_limit) (t : tracking) (clientIp : string)
    (instants : list Z) : list bool * tracking :=
  match instants with
  | [] => ([], t)
  | now :: rest =>
      let r := rateLimiter rl t clientIp now in
      let '(vs, t') := requests_at rl (snd r) clientIp rest in
      (admitted r :: vs, t')
  end.

(** The verdicts of the limiter as a function of one client's stored
    timestamps alone. *)
Fixpoint window_verdicts (rl : rate_limit) (timestamps : list Z)
    (instants : list Z) : list bool :=
  match instants with
  | [] => []
  | now :: rest =>
      let recent := in_window rl now timestamps in
      if (List.length recent <? maxRequests rl)%nat
      then true :: window_verdicts rl (recent ++ [now]) rest
      else false :: window_verdicts rl timestamps rest
  end.

(** The states the map goes through: it starts empty and only the
    middleware writes it. *)
Inductive reachable (rl : rate_limit) : tracking -> Prop :=
| reachable_start : reachable rl ∅
| reachable_request t clientIp now :
    reachable rl t -> reachable rl (snd (rateLimiter rl t clientIp now)).

(** *** Forwarding *)

(** What [axios.post(apiEndpoint, req.body, axiosConfig)] is called with. *)
Record upstream_call := {
  target : property;               (* [API_ENDPOINTS[endpointKey]] *)
  sent : generation_body;
  authorization : option string;
  call_timeout : Z
}.

(** What happens to a forwarded request on the wire. *)
Inductive transport :=
| Replied (r : upstream_response)
| NoResponse
| SetupFailure.

(** The error object axios rejects with: [error.response] and whether
    [error.request] is set. *)
Record axios_error := {
  err_response : option upstream_response;
  err_request : bool
}.

(** axios resolves on a 2xx status and rejects otherwise. *)
Definition validateStatus (status : nat) : bool :=
  (200 <=? status)%nat && (status <? 300)%nat.

Definition axios_post (net : upstream_call -> transport) (c : upstream_call)
    : upstream_response + axios_error :=
  match net c with
  | Replied r =>
      if validateStatus (up_status r) then inl r
      else inr {| err_response := Some r; err_request := true |}
  | NoResponse => inr {| err_response := None; err_request := true |}
  | SetupFailure => inr {| err_response := None; err_request := false |}
  end.

(** [error.response.data?.error]. *)
Definition data_error (d : upstream_data) : js_value :=
  match d with
  | NoData => JsUndefined
  | Data e _ => e
  end.

Definition missing_parameters : response :=
  {| code := 400;
     json := ErrorJson "Missing parameters"
               (JsStr "Model and prompt are required") None |}.

Definition invalid_endpoint (endpointKey : string) : response :=
  {| code := 400;
     json := ErrorJson "Invalid endpoint"
               (JsStr (String.append "Endpoint '"
                         (String.append endpointKey "' is not available")))
               None |}.

(** The [catch] block of the handler. *)
Definition on_error (error : axios_error) : response :=
  match err_response error with
  | Some r =>
      {| code := up_status r;
         json := ErrorJson "API Error"
                   (js_or (data_error (up_data r))
                          (JsStr "The API returned an error"))
                   (Some (up_status r)) |}
  | None =>
      if err_request error then
        {| code := 504;
           json := ErrorJson "Gateway Timeout"
                     (JsStr "The API server is not responding") None |}
      else
        {| code := 500;
           json := ErrorJson "Internal Server Error"
                     (JsStr "An error occurred while processing your request")
                     None |}
  end.

Definition bearer (env : environment) : option string :=
  match OLLAMA_API_KEY env with
  | Some k => if string_nonempty k then Some (String.append "Bearer " k) else None
  | None => None
  end.

(** [app.post('/api/generate', ...)]: the response and the upstream calls
    made for it. *)
Definition generate (env : environment) (net : upstream_call -> transport)
    (req : request) : response * list upstream_call :=
  let b := body req in
  if negb (truthy (model b)) || negb (truthy (prompt b)) then
    (missing_parameters, [])
  else
    let endpointKey := str_or (query_endpoint req) (DEFAULT_ENDPOINT env) in
    if negb (property_truthy (get_property (API_ENDPOINTS env) endpointKey)) then
      (invalid_endpoint endpointKey, [])
    else
      let apiEndpoint := get_property (API_ENDPOINTS env) endpointKey in
      let call := {| target := apiEndpoint; sent := b;
                     authorization := bearer env; call_timeout := 30000 |} in
      match axios_post net call with
      | inl response => ({| code := 200; json := UpstreamJson (up_data response) |}, [call])
      | inr error => (on_error error, [call])
      end.

Definition health (env : environment) : response :=
  {| code := 200;
     json := HealthJson "ok" (str_or (NODE_ENV env) "development") |}.

Definition info (env : environment) : response :=
  {| code := 200;
     json := InfoJson "Ollama API Proxy" "1.0.0"
               (Object_keys (API_ENDPOINTS env)) RATE_LIMIT |}.

(** The routes registered after the middleware; anything else is Express's
    own 404. *)
Definition route (env : environment) (net : upstream_call -> transport)
    (req : request) : response * list upstream_call :=
  match matched req with
  | GetHealth => (health env, [])
  | GetInfo => (info env, [])
  | PostGenerate => generate env net req
  | _ => ({| code := 404; json := NotFound |}, [])
  end.

(** [app.use(cors())] answers a preflight request itself. *)
Definition preflight (req : request) : bool :=
  match matched req with
  | Preflight => true
  | _ => false
  end.

(** One request through the application: after the preflight check the
    rate limiter runs, before any route. *)
Definition app (env : environment) (net : upstream_call -> transport)
    (t : tracking) (now : Z) (req : request)
    : response * list upstream_call * tracking :=
  if preflight req then ({| code := 204; json := NoContent |}, [], t)
  else
    match rateLimiter RATE_LIMIT t (ip req) now with
    | (inl r, t') => (r, [], t')
    | (inr _, t') =>
        let '(r, calls) := route env net req in
        (r, calls, t')
    end.

(** Requests served one after the other, each with its arrival time. *)
Fixpoint serve (env : environment) (net : upstream_call -> transport)
    (t : tracking) (arrivals : list (Z * request))
    : list response * tracking :=
  match arrivals with
  | [] => ([], t)
  | (now, req) :: rest =>
      let '(r, _, t1) := app env net t now req in
      let '(rs, t2) := serve env net t1 rest in
      (r :: rs, t2)
  end.

(** *** Sample requests *)

Definition development : environment :=
  {| OLLAMA_API_LOCAL := None; OLLAMA_API_PRODUCTION := None;
     OLLAMA_API_KEY := None; NODE_ENV := None |}.

Definition post_generate (clientIp : string) (endpoint : option string)
    (model prompt : js_value) : request :=
  {| matched := PostGenerate; ip := clientIp;
     query_endpoint := endpoint;
     body := {| model := model; prompt := prompt;
                stream := JsUndefined; options := JsUndefined |} |}.

Definition upstream_down : upstream_call -> transport := fun _ => NoResponse.

Definition upstream_busy : upstream_call -> transport :=
  fun _ => Replied {| up_status := 503;
                      up_data := Data (JsStr "model is loading") "" |}.

End Proxy.

(** ** The failover client ([api-connection-utils.js]) *)

Module Client.

Record connection_settings := {
  timeout : Z;
  retryCount : nat;
  retryDelay : Z;
  checkInterval : Z
}.

Record api_config := {
  endpoints : js_object;
  settings : connection_settings;
  models : js_object
}.

Definition ApiConfig : api_config :=
  {| endpoints :=
       [ ("local", "http://192.168.1.50:11434/api/generate");
         ("production", "https://ollama.mhrpci.site/api/generate") ];
     settings :=
       {| timeout := 8000; retryCount := 2; retryDelay := 1000;
          checkInterval := 30000 |};
     models :=
       [ ("phi:latest", "Phi");
         ("deepseek-coder:6.7b-instruct", "DeepSeekCoder");
         ("mistral:latest", "Mistral") ] |}.

(** *** Requests, responses and errors *)

Record generation_options := {
  temperature : js_value;
  top_p : js_value;
  max_tokens : js_value
}.

(** The JSON body of a fetch: the probes send no [options]. *)
Record request_body := {
  model : string;
  prompt : string;
  stream : js_value;
  options : option generation_options
}.

(** The [options] argument of [callOllamaApi]; a property the caller left
    out is [JsUndefined]. *)
Record call_options := {
  opt_stream : js_value;
  opt_temperature : js_value;
  opt_top_p : js_value;
  opt_max_tokens : js_value
}.

Definition no_options : call_options :=
  {| opt_stream := JsUndefined; opt_temperature := JsUndefined;
     opt_top_p := JsUndefined; opt_max_tokens := JsUndefined |}.

Record js_error := { name : string; message : string }.

(** The parsed body of a response: its [error] property and its text. *)
Record data := { error : js_value; response : string }.

Inductive json_result :=
| JsonRejects (e : js_error)
| Json (d : data).

Record http_response := { status : nat; body : json_result }.

(** [response.ok]. *)
Definition ok (r : http_response) : bool :=
  (200 <=? status r)%nat && (status r <=? 299)%nat.

(** How a fetch settles.  A timeout is a rejection with an [AbortError]:
    the abort timer is part of the network's answer. *)
Inductive fetch_outcome :=
| Rejects (e : js_error)
| Resolves (r : http_response).

(** The network answers the [i]-th fetch of the session, to a URL, with a
    body. *)
Definition network := nat -> string -> request_body -> fetch_outcome.

(** What the functions throw. *)
Inductive error_value :=
| FetchError (e : js_error)      (* rejection of [fetch] or [response.json()] *)
| HttpError (status : nat)       (* [new Error(`HTTP error! status: ...`)] *)
| ApiError (v : js_value).       (* [new Error(data.error)] *)

(** *** The browser *)

Record browser := {
  hostname : string;                (* [window.location.hostname] *)
  apiEndpoint : option string;      (* session storage item ['apiEndpoint'] *)
  statusText : option string;       (* [textContent] of [#statusText], if present *)
  statusIndicator : option string;  (* [className] of [#statusIndicator], if present *)
  authOverlay : option string;      (* [style.display] of [#authOverlay], if present *)
  showToast : bool;                 (* [typeof showToast === 'function'] *)
  toasts : list (string * string * string);
  fetched : list (string * request_body)
}.

Definition set_apiEndpoint (v : option string) (b : browser) : browser :=
  {| hostname := hostname b; apiEndpoint := v; statusText := statusText b;
     statusIndicator := statusIndicator b; authOverlay := authOverlay b;
     showToast := showToast b; toasts := toasts b; fetched := fetched b |}.

Definition set_status (text cls : string) (b : browser) : browser :=
  {| hostname := hostname b; apiEndpoint := apiEndpoint b;
     statusText := Some text; statusIndicator := Some cls;
     authOverlay := authOverlay b; showToast := showToast b;
     toasts := toasts b; fetched := fetched b |}.

Definition add_toast (t : string * string * string) (b : browser) : browser :=
  {| hostname := hostname b; apiEndpoint := apiEndpoint b;
     statusText := statusText b; statusIndicator := statusIndicator b;
     authOverlay := authOverlay b; showToast := showToast b;
     toasts := toasts b ++ [t]; fetched := fetched b |}.

Definition add_fetch (c : string * request_body) (b : browser) : browser :=
  {| hostname := hostname b; apiEndpoint := apiEndpoint b;
     statusText := statusText b; statusIndicator := statusIndicator b;
     authOverlay := authOverlay b; showToast := showToast b;
     toasts := toasts b; fetched := fetched b ++ [c] |}.

(** *** Computations: browser state and exceptions *)

Inductive outcome (A : Type) :=
| Ok (a : A)
| Throw (e : error_value).
Arguments Ok {A} a.
Arguments Throw {A} e.

Definition M (A : Type) : Type := browser -> outcome A * browser.

Definition ret {A} (a : A) : M A := fun b => (Ok a, b).

Definition bind {A B} (m : M A) (k : A -> M B) : M B :=
  fun b =>
    match m b with
    | (Ok a, b') => k a b'
    | (Throw e, b') => (Throw e, b')
    end.

Definition throw {A} (e : error_value) : M A := fun b => (Throw e, b).

(** [try { m } catch (error) { h error }]. *)
Definition try_catch {A} (m : M A) (h : error_value -> M A) : M A :=
  fun b =>
    match m b with
    | (Ok a, b') => (Ok a, b')
    | (Throw e, b') => h e b'
    end.

(** A call to an async function that is not awaited: the caller goes on
    whatever becomes of it; its effects are those of the settled task. *)
Definition detached {A} (m : M A) : M unit :=
  fun b => (Ok tt, snd (m b)).

Definition when (c : bool) (m : M unit) : M unit := if c then m else ret tt.

Notation "'do' x <- m ; k" := (bind m (fun x => k))
  (at level 10, x name, m at level 100, k at level 200).
Notation "m ;; k" := (bind m (fun _ => k))
  (at level 100, k at level 200, right associativity).

(** *** Endpoint selection *)

(** [s.includes(sub)]. *)
Fixpoint includes (s sub : string) : bool :=
  if String.prefix sub s then true
  else match s with
       | EmptyString => false
       | String _ s' => includes s' sub
       end.

(** [ApiConfig.endpoints.local] and [.production], as [setItem] stores
    them: a missing property is [undefined], stored as its name. *)
Definition endpoint_of (cfg : api_config) (key : string) : string :=
  match own_property (endpoints cfg) key with
  | Some v => v
  | None => "undefined"
  end.

(** [!sessionStorage.getItem('apiEndpoint')]. *)
Definition item_missing (item : option string) : bool :=
  match item with
  | Some v => negb (string_nonempty v)
  | None => true
  end.

Definition getApiEndpoint (cfg : api_config) : M string :=
  fun b =>
    let isLocalEnvironment :=
      includes (hostname b) "localhost" ||
      includes (hostname b) "127.0.0.1" ||
      includes (hostname b) "192.168." in
    let b :=
      if item_missing (apiEndpoint b) then
        let endpoint :=
          if isLocalEnvironment then endpoint_of cfg "local"
          else endpoint_of cfg "production" in
        set_apiEndpoint (Some endpoint) b
      else b in
    (* the item is set by now, [getItem] does not return [null] *)
    (Ok (default "" (apiEndpoint b)), b).

Definition getFallbackEndpoints (cfg : api_config) : M (list string) :=
  do primaryEndpoint <- getApiEndpoint cfg;
  ret (List.filter (fun endpoint => negb (String.eqb endpoint primaryEndpoint))
         (Object_values (endpoints cfg))).

(** *** Status display *)

Definition indicator_class (status : string) : string :=
  String.append "w-2 h-2 rounded-full mr-2 "
    (if String.eqb status "online" then "bg-green-400"
     else if String.eqb status "warning" then "bg-yellow-400"
     else "bg-red-400").

Definition updateConnectionStatus (status text : string) : M unit :=
  fun b =>
    match statusText b, statusIndicator b with
    | Some _, Some _ => (Ok tt, set_status text (indicator_class status) b)
    | _, _ => (Ok tt, b)
    end.

Definition isAuthenticationComplete : M bool :=
  fun b =>
    match authOverlay b with
    | None => (Ok true, b)
    | Some display => (Ok (String.eqb display "none"), b)
    end.

(** [if (typeof showToast === 'function') showToast(type, title, text)]. *)
Definition toast (type title text : string) : M unit :=
  fun b => (Ok tt, if showToast b then add_toast (type, title, text) b else b).

(** The same, behind [&& isAuthenticationComplete()]. *)
Definition toast_if_authenticated (type title text : string) : M unit :=
  fun b =>
    if showToast b then
      (do complete <- isAuthenticationComplete;
       when complete (toast type title text)) b
    else (Ok tt, b).

(** *** The network *)

Section WithNetwork.

Variable cfg : api_config.
Variable net : network.

(** [await fetch(endpoint, { method: 'POST', ..., body, signal })]. *)
Definition fetch (endpoint : string) (body : request_body) : M http_response :=
  fun b =>
    let b' := add_fetch (endpoint, body) b in
    match net (List.length (fetched b)) endpoint body with
    | Rejects e => (Throw (FetchError e), b')
    | Resolves r => (Ok r, b')
    end.

(** The body of the liveness probes. *)
Definition probe_body : request_body :=
  {| model := "phi:latest"; prompt := "test"; stream := JsBool false;
     options := None |}.

(** *** Failover *)

(** The [for] loop of [tryNextEndpoint]: [Some endpoint] is its [return]. *)
Fixpoint try_fallbacks (fallbacks : list string) : M (option string) :=
  match fallbacks with
  | [] => ret None
  | endpoint :: rest =>
      do found <-
        try_catch
          (do response <- fetch endpoint probe_body;
           if ok response then
             (fun b => (Ok tt, set_apiEndpoint (Some endpoint) b));;
             toast "success" "Switched to alternate API server"
                   "Connection established";;
             ret (Some endpoint)
           else ret None)
          (fun error => ret None);
      match found with
      | Some endpoint => ret (Some endpoint)
      | None => try_fallbacks rest
      end
  end.

Definition tryNextEndpoint : M string :=
  do fallbacks <- getFallbackEndpoints cfg;
  do found <- try_fallbacks fallbacks;
  match found with
  | Some endpoint => ret endpoint
  | None =>
      do primaryEndpoint <- getApiEndpoint cfg;
      ret primaryEndpoint
  end.

(** *** Liveness probe *)

(** [error.name === 'AbortError']. *)
Definition is_abort (error : error_value) : bool :=
  match error with
  | FetchError e => String.eqb (name e) "AbortError"
  | _ => false
  end.

(** [error.message && error.message.includes('NetworkError')]. *)
Definition is_network_error (error : error_value) : bool :=
  match error with
  | FetchError e => includes (message e) "NetworkError"
  | HttpError _ => false
  | ApiError (JsStr s) => includes s "NetworkError"
  | ApiError _ => false
  end.

Definition checkApiStatus : M bool :=
  do endpoint <- getApiEndpoint cfg;
  try_catch
    (updateConnectionStatus "warning" "Checking API...";;
     do response <- fetch endpoint probe_body;
     if ok response then
       updateConnectionStatus "online" "AI Online";;
       ret true
     else
       (* [response.json().catch(() => ({}))] only feeds the console *)
       updateConnectionStatus "warning" "API Limited";;
       toast_if_authenticated "warning" "API Limited"
         "The AI service is experiencing limitations";;
       ret false)
    (fun error =>
       (if is_abort error then
          updateConnectionStatus "offline" "Connection Timeout"
        else if is_network_error error then
          updateConnectionStatus "offline" "Network Error"
        else
          updateConnectionStatus "offline" "AI Offline");;
       toast_if_authenticated "error" "API Connection Failed"
         "Could not connect to AI service";;
       detached tryNextEndpoint;;
       ret false).

(** *** The generation call *)

Definition build_request (model prompt : string) (options : call_options)
    : request_body :=
  {| model := model;
     prompt := prompt;
     stream := js_or (opt_stream options) (JsBool false);
     options :=
       Some {| temperature := js_or (opt_temperature options) (JsNum (7 # 10)%Q);
               top_p := js_or (opt_top_p options) (JsNum (9 # 10)%Q);
               max_tokens := js_or (opt_max_tokens options) (JsNum (5000 # 1)%Q) |} |}.

(** [attempts % retryCount === 0]; the remainder by zero is [NaN]. *)
Definition retries_used_up (attempts retryCount : nat) : bool :=
  match retryCount with
  | O => false
  | S _ => (attempts mod retryCount =? 0)%nat
  end.

(** The [try] block of one iteration. *)
Definition attempt (endpoint : string) (requestBody : request_body) : M data :=
  do response <- fetch endpoint requestBody;
  if negb (ok response) then throw (HttpError (status response))
  else
    match body response with
    | JsonRejects e => throw (FetchError e)
    | Json d =>
        if truthy (error d) then throw (ApiError (error d))
        else
          updateConnectionStatus "online" "AI Online";;
          ret d
    end.

(** The [catch] block: it rethrows, or leaves the endpoint and the count
    for the next iteration. *)
Definition recover (maxAttempts : nat) (endpoint : string) (attempts : nat)
    (error : error_value) : M (string * nat) :=
  let attempts := S attempts in
  do endpoint <-
    (if retries_used_up attempts (retryCount (settings cfg)) then
       do next <- tryNextEndpoint;
       updateConnectionStatus "warning" "Switching endpoints...";;
       ret next
     else if (attempts <? maxAttempts)%nat then
       updateConnectionStatus "warning" "Retrying connection...";;
       (* [retryDelay] passes *)
       ret endpoint
     else ret endpoint);
  if (maxAttempts <=? attempts)%nat then
    updateConnectionStatus "offline" "Connection Failed";;
    throw error
  else ret (endpoint, attempts).

(** How a call ends when it does not throw: with the data, or by leaving
    the loop without a [return]. *)
Inductive call_result :=
| Returned (d : data)
| ReturnedUndefined
| Unfinished.

(** [while (attempts < maxAttempts) { ... }]: [fuel] bounds the iterations
    and [Unfinished] marks its exhaustion. *)
Fixpoint attempts_loop (fuel : nat) (maxAttempts : nat)
    (requestBody : request_body) (endpoint : string) (attempts : nat)
    : M call_result :=
  if (attempts <? maxAttempts)%nat then
    match fuel with
    | O => ret Unfinished
    | S fuel' =>
        do next <-
          try_catch
            (do d <- attempt endpoint requestBody; ret (inl d))
            (fun error =>
               do again <- recover maxAttempts endpoint attempts error;
               ret (inr again));
        match next with
        | inl d => ret (Returned d)
        | inr (endpoint, attempts) =>
            attempts_loop fuel' maxAttempts requestBody endpoint attempts
        end
    end
  else ret ReturnedUndefined.

Definition callOllamaApi (model prompt : string) (options : call_options)
    : M call_result :=
  do endpoint <- getApiEndpoint cfg;
  let attempts := O in
  let maxAttempts := (retryCount (settings cfg) * 2)%nat in
  let requestBody := build_request model prompt options in
  attempts_loop maxAttempts maxAttempts requestBody endpoint attempts.

End WithNetwork.

(** *** Reading a state *)

(** The generation attempts among the fetches: those that carry options. *)
Definition is_attempt (c : string * request_body) : bool :=
  match options (snd c) with
  | Some _ => true
  | None => false
  end.

Definition attempts_made (b : browser) : nat :=
  List.length (List.filter is_attempt (fetched b)).

(** The error a generation attempt ends with, if it does. *)
Definition attempt_error (o : fetch_outcome) : option error_value :=
  match o with
  | Rejects e => Some (FetchError e)
  | Resolves r =>
      if negb (ok r) then Some (HttpError (status r))
      else match body r with
           | JsonRejects e => Some (FetchError e)
           | Json d => if truthy (error d) then Some (ApiError (error d)) else None
           end
  end.

(** A probe succeeds when it is answered with an OK status. *)
Definition probe_succeeds (o : fetch_outcome) : bool :=
  match o with
  | Rejects _ => false
  | Resolves r => ok r
  end.

(** What the status elements show. *)
Definition shows (status text : string) (b : browser) : Prop :=
  statusIndicator b = Some (indicator_class status) /\ statusText b = Some text.

Definition status_elements (b : browser) : bool :=
  match statusText b, statusIndicator b with
  | Some _, Some _ => true
  | _, _ => false
  end.

(** The parts of a state the functions only read. *)
Definition page (b : browser) : string * option string * bool :=
  (hostname b, authOverlay b, showToast b).

Definition status_view (b : browser) : option string * option string :=
  (statusText b, statusIndicator b).

(** The state after [updateConnectionStatus(status, text)]. *)
Definition display (status text : string) (b : browser) : browser :=
  snd (updateConnectionStatus status text b).

(** [b'] has the status elements of [b], and where they are missing
    nothing is shown in [b'] that was not in [b]. *)
Definition same_display (b b' : browser) : Prop :=
  status_elements b' = status_elements b /\
  (status_elements b = false -> status_view b' = status_view b).

(** The endpoint [getApiEndpoint] answers with, given the host name and the
    stored item. *)
Definition resolve (cfg : api_config) (host : string) (item : option string)
    : string :=
  if item_missing item then
    if includes host "localhost" || includes host "127.0.0.1" ||
       includes host "192.168."
    then endpoint_of cfg "local"
    else endpoint_of cfg "production"
  else default "" item.

(** The Registry entries other than [primary], in Registry order. *)
Definition fallbacks_of (cfg : api_config) (primary : string) : list string :=
  List.filter (fun endpoint => negb (String.eqb endpoint primary))
    (Object_values (endpoints cfg)).

Definition probe_calls (l : list string) : list (string * request_body) :=
  List.map (fun endpoint => (endpoint, probe_body)) l.

(** None of the endpoints of [l], probed one after the other from the
    [start]-th fetch on, answers with an OK status. *)
Fixpoint no_probe_succeeds (net : network) (start : nat) (l : list string)
    : bool :=
  match l with
  | [] => true
  | endpoint :: rest =>
      negb (probe_succeeds (net start endpoint probe_body)) &&
      no_probe_succeeds net (S start) rest
  end.

(** *** Sample sessions *)

Definition remote_session : browser :=
  {| hostname := "chat.example.org"; apiEndpoint := None;
     statusText := Some "Checking API..."; statusIndicator := Some "";
     authOverlay := None; showToast := true; toasts := []; fetched := [] |}.

Definition refused : fetch_outcome :=
  Rejects {| name := "TypeError"; message := "Failed to fetch" |}.

Definition timed_out : fetch_outcome :=
  Rejects {| name := "AbortError"; message := "The user aborted a request." |}.

Definition answer (text : string) : fetch_outcome :=
  Resolves {| status := 200;
              body := Json {| error := JsUndefined; response := text |} |}.

(** Nothing answers. *)
Definition all_down : network := fun _ _ _ => refused.

(** Every request runs into the abort timer. *)
Definition all_slow : network := fun _ _ _ => timed_out.

(** Only the local endpoint answers. *)
Definition only_local : network :=
  fun _ url _ =>
    if String.eqb url "http://192.168.1.50:11434/api/generate"
    then answer "hello" else refused.

(** The default configuration with a third Registry entry. *)
Definition three_endpoints : api_config :=
  {| endpoints := endpoints ApiConfig ++ [("backup", "https://backup.example.org/api/generate")];
     settings := settings ApiConfig;
     models := models ApiConfig |}.

(** The default configuration without retries. *)
Definition no_retries : api_config :=
  {| endpoints := endpoints ApiConfig;
     settings := {| timeout := 8000; retryCount := 0; retryDelay := 1000;
                    checkInterval := 30000 |};
     models := models ApiConfig |}.

End Client.

(** ** The chat page of the connection guide *)

(** The two functions the guide adds to the page: [buildContextPrompt] and
    [sendMessage], the caller of [callOllamaApi]. *)
Module Chat.

Import Client.

(** The line feed of the template literals. *)
Definition nl : string := String (Ascii.ascii_of_nat 10) EmptyString.

(** An entry of [conversationHistory]. *)
Record chat_message := { role : string; content : string }.

(** [l.slice(-n)]. *)
Definition slice_last {A} (n : nat) (l : list A) : list A :=
  skipn (List.length l - n) l.

(** [`${msg.role === 'user' ? 'User' : 'Assistant'}: ${msg.content}`]. *)
Definition line (msg : chat_message) : string :=
  String.append (if String.eqb (role msg) "user" then "User" else "Assistant")
    (String.append ": " (content msg)).

Definition preamble : string :=
  "You are ChuweyWebDev AI Assistant, a helpful AI that specializes in web development, coding, and technical assistance. Be helpful, concise, and professional.".

Definition buildContextPrompt (conversationHistory : list chat_message)
    (message : string) : string :=
  if (0 <? List.length conversationHistory)%nat then
    String.append
      (String.concat nl (List.map line (slice_last 6 conversationHistory)))
      (String.append nl
         (String.append "User: " (String.append message (String.append nl "Assistant:"))))
  else
    String.append preamble
      (String.append nl
         (String.append nl
            (String.append "User: "
               (String.append message (String.append nl "Assistant:"))))).

(** What [sendMessage] reads and writes: the input box, the counter and the
    button, the typing indicator, the two variables of the script, the
    calls to [addMessage] so far, and the session of the connection
    utilities. *)
Record page := {
  messageInput : string;          (* [messageInput.value] *)
  inputHeight : string;           (* [messageInput.style.height] *)
  charCount : string;             (* [charCount.textContent] *)
  sendDisabled : bool;            (* [sendButton.disabled] *)
  selectedModel : string;         (* [modelSelector.value] *)
  typingIndicator : bool;
  isGenerating : bool;
  conversationHistory : list chat_message;
  shown : list (string * string * bool);   (* [addMessage(text, sender, isError)] *)
  session : browser
}.

Definition apology : string :=
  "Sorry, I encountered an error while processing your request. Please try again.".

Section WithTrim.

(** [String.prototype.trim], a built-in. *)
Variable trim : string -> string.

Variable cfg : api_config.
Variable net : network.

Definition sendMessage (p : page) : page :=
  let message := trim (messageInput p) in
  if negb (string_nonempty message) || isGenerating p then p
  else
    (* the message is shown and recorded, the input cleared, the button locked *)
    let shown1 := shown p ++ [(message, "user", false)] in
    let history1 := conversationHistory p ++ [{| role := "user"; content := message |}] in
    (* try *)
    let contextPrompt := buildContextPrompt history1 message in
    let '(result, session1) :=
      callOllamaApi cfg net (selectedModel p) contextPrompt no_options (session p) in
    match result with
    | Ok (Returned data) =>
        {| messageInput := ""; inputHeight := "auto"; charCount := "0/5000";
           sendDisabled := false; selectedModel := selectedModel p;
           typingIndicator := false; isGenerating := false;
           conversationHistory :=
             history1 ++ [{| role := "assistant"; content := response data |}];
           shown := shown1 ++ [(response data, "ai", false)];
           session := session1 |}
    | _ =>
        (* the call threw, or it returned nothing and [data.response] threw *)
        {| messageInput := ""; inputHeight := "auto"; charCount := "0/5000";
           sendDisabled := false; selectedModel := selectedModel p;
           typingIndicator := false; isGenerating := false;
           conversationHistory := history1;
           shown := shown1 ++ [(apology, "ai", true)];
           session := session1 |}
    end.

End WithTrim.

(** *** A sample page *)

Definition is_space (c : Ascii.ascii) : bool :=
  let n := Ascii.nat_of_ascii c in
  (n =? 32)%nat || ((9 <=? n)%nat && (n <=? 13)%nat).

Fixpoint trim_start (s : string) : string :=
  match s with
  | EmptyString => EmptyString
  | String c s' => if is_space c then trim_start s' else s
  end.

(** [trim] on ASCII text. *)
Definition ascii_trim (s : string) : string :=
  String.rev (trim_start (String.rev (trim_start s))).

Definition fresh_page (input : string) : page :=
  {| messageInput := input; inputHeight := "48px"; charCount := "0/5000";
     sendDisabled := false; selectedModel := "phi:latest";
     typingIndicator := false; isGenerating := false;
     conversationHistory := []; shown := []; session := remote_session |}.

End Chat.

(** ** More sample sessions *)

Module ClientSamples.

Import Client.

(** The notification of a successful failover. *)
Definition switched_toast : string * string * string :=
  ("success", "Switched to alternate API server", "Connection established").

(** What [isAuthenticationComplete] answers in a state. *)
Definition authenticated (b : browser) : bool :=
  match authOverlay b with
  | None => true
  | Some display => String.eqb display "none"
  end.

(** A remote host whose name contains [localhost]. *)
Definition lookalike_session : browser :=
  {| hostname := "localhost.example.org"; apiEndpoint := None;
     statusText := Some ""; statusIndicator := Some "";
     authOverlay := Some "flex"; showToast := true; toasts := []; fetched := [] |}.


(** Every request is answered with "ok". *)
Definition healthy : network := fun _ _ _ => answer "ok".

(** The first fetch of the session is refused, the local endpoint answers
    from then on. *)
Definition recovering : network :=
  fun i url _ =>
    match i with
    | O => refused
    | S _ => only_local i url probe_body
    end.

End ClientSamples.

(** ** More sample requests *)

Module Samples.

Import Proxy.

Definition get_health (clientIp : string) : request :=
  {| matched := GetHealth; ip := clientIp; query_endpoint := None;
     body := {| model := JsUndefined; prompt := JsUndefined;
                stream := JsUndefined; options := JsUndefined |} |}.

(** An environment that sets every variable, one of them to nothing. *)
Definition production : environment :=
  {| OLLAMA_API_LOCAL := Some "";
     OLLAMA_API_PRODUCTION := Some "https://llm.example.org/api/generate";
     OLLAMA_API_KEY := Some "s3cret";
     NODE_ENV := Some "production" |}.

End Samples.

(** ** Properties of the gateway *)

Module ProxyTheory.

Import Proxy.

Section RateLimiter.

Variable rl : rate_limit.

Lemma stored_insert (t : tracking) (clientIp : string) (l : list Z) :
  stored (<[clientIp := l]> t) clientIp = l.
Proof. unfold stored. by rewrite lookup_insert_eq. Qed.

Lemma stored_insert_ne (t : tracking) (a b : string) (l : list Z) :
  a ≠ b -> stored (<[a := l]> t) b = stored t b.
Proof. intros H. unfold stored. by rewrite lookup_insert_ne. Qed.

Lemma rateLimiter_unfold (t : tracking) (clientIp : string) (now : Z) :
  rateLimiter rl t clientIp now =
    let recent := in_window rl now (stored t clientIp) in
    if (List.length recent <? maxRequests rl)%nat
    then (inr tt, <[clientIp := recent ++ [now]]> t)
    else (inl too_many_requests, <[clientIp := stored t clientIp]> t).
Proof.
  unfold rateLimiter. cbn zeta. rewrite Nat.ltb_antisym.
  destruct (t !! clientIp) as [l|] eqn:Hl.
  - destruct (_ <=? _)%nat; cbn [negb]; [|done].
    f_equal. symmetry. apply insert_id.
    unfold stored. by rewrite Hl.
  - rewrite stored_insert.
    assert (stored t clientIp = []) as -> by (unfold stored; by rewrite Hl).
    destruct (_ <=? _)%nat; cbn [negb]; [done|].
    f_equal. apply insert_insert_eq.
Qed.

Lemma admitted_unfold (t : tracking) (clientIp : string) (now : Z) :
  admitted (rateLimiter rl t clientIp now) =
    (List.length (in_window rl now (stored t clientIp)) <? maxRequests rl)%nat.
Proof.
  rewrite rateLimiter_unfold. cbn zeta. unfold admitted.
  by destruct (_ <? _)%nat.
Qed.

Lemma stored_after (t : tracking) (clientIp : string) (now : Z) :
  stored (snd (rateLimiter rl t clientIp now)) clientIp =
    if admitted (rateLimiter rl t clientIp now)
    then in_window rl now (stored t clientIp) ++ [now]
    else stored t clientIp.
Proof.
  rewrite admitted_unfold, rateLimiter_unfold. cbn zeta.
  destruct (_ <? _)%nat; cbn [snd]; apply stored_insert.
Qed.

Lemma stored_after_other (t : tracking) (a b : string) (now : Z) :
  a ≠ b -> stored (snd (rateLimiter rl t a now)) b = stored t b.
Proof.
  intros H. rewrite rateLimiter_unfold. cbn zeta.
  destruct (_ <? _)%nat; cbn [snd]; by apply stored_insert_ne.
Qed.

Lemma requests_at_verdicts (instants : list Z) (t : tracking) (clientIp : string) :
  fst (requests_at rl t clientIp instants) =
    window_verdicts rl (stored t clientIp) instants.
Proof.
  revert t. induction instants as [|now rest IH]; intros t; [done|].
  cbn [requests_at window_verdicts].
  specialize (IH (snd (rateLimiter rl t clientIp now))).
  destruct (requests_at rl (snd (rateLimiter rl t clientIp now)) clientIp rest)
    as [vs t'] eqn:Hrest.
  cbn [fst] in *. rewrite IH, stored_after, admitted_unfold. cbn zeta.
  by destruct (_ <? _)%nat.
Qed.

Lemma in_window_length (now : Z) (l : list Z) :
  (List.length (in_window rl now l) <= List.length l)%nat.
Proof. apply List.filter_length_le. Qed.

Lemma in_window_Forall (now : Z) (l : list Z) :
  Forall (fun ts => (now - windowMs rl < ts)%Z) (in_window rl now l).
Proof.
  apply Forall_forall. intros ts Hin.
  apply list_elem_of_In, List.filter_In in Hin as [_ H].
  by apply Z.ltb_lt in H.
Qed.

(** A filter that keeps the length keeps the list. *)
Lemma filter_full {A} (f : A -> bool) (l : list A) :
  (List.length l <= List.length (List.filter f l))%nat -> List.filter f l = l.
Proof.
  induction l as [|x l IH]; [done|]. cbn [List.filter].
  destruct (f x); cbn [List.length]; intros H.
  - f_equal. apply IH. lia.
  - pose proof (List.filter_length_le f l). lia.
Qed.

(** No client ever has more than [maxRequests] timestamps on record. *)
Lemma reachable_bounded (t : tracking) :
  reachable rl t ->
  forall clientIp, (List.length (stored t clientIp) <= maxRequests rl)%nat.
Proof.
  induction 1 as [|t a now Hr IH]; intros b.
  - unfold stored. rewrite lookup_empty. cbn. lia.
  - destruct (decide (a = b)) as [->|Hne].
    + rewrite stored_after, admitted_unfold.
      destruct (Nat.ltb_spec (List.length (in_window rl now (stored t b)))
                  (maxRequests rl)) as [Hlt|Hge].
      * rewrite length_app. cbn. lia.
      * apply IH.
    + rewrite stored_after_other by done. apply IH.
Qed.

End RateLimiter.

Lemma app_unfold env net (t : tracking) (now : Z) (req : request) :
  preflight req = false ->
  app env net t now req =
    let recent := in_window RATE_LIMIT now (stored t (ip req)) in
    if (List.length recent <? maxRequests RATE_LIMIT)%nat
    then (fst (route env net req), snd (route env net req),
          <[ip req := recent ++ [now]]> t)
    else (too_many_requests, [], <[ip req := stored t (ip req)]> t).
Proof.
  intros Hpre. unfold app. rewrite Hpre, rateLimiter_unfold. cbn zeta.
  destruct (_ <? _)%nat; [|done]. by destruct (route env net req).
Qed.

Lemma post_not_preflight (req : request) :
  matched req = PostGenerate -> preflight req = false.
Proof. intros H. unfold preflight. by rewrite H. Qed.

(** The responses to one client depend on the map only through that
    client's timestamps. *)
Lemma serve_responses env net (clientIp : string)
    (arrivals : list (Z * request)) (t : tracking) :
  Forall (fun a => ip (snd a) = clientIp /\ preflight (snd a) = false) arrivals ->
  fst (serve env net t arrivals) =
    zip_with
      (fun (v : bool) a =>
         if v then fst (route env net (snd a)) else too_many_requests)
      (window_verdicts RATE_LIMIT (stored t clientIp) (List.map fst arrivals))
      arrivals.
Proof.
  revert t. induction arrivals as [|[now req] rest IH]; intros t Hall; [done|].
  inversion Hall as [|? ? [Hip Hpre] Hrest]; subst. cbn [snd] in *.
  cbn [serve List.map fst window_verdicts].
  rewrite app_unfold by done. cbn zeta.
  destruct (_ <? _)%nat eqn:Hv.
  - specialize (IH (<[ip req := in_window RATE_LIMIT now (stored t (ip req)) ++ [now]]> t) Hrest).
    destruct (serve env net _ rest) as [rs t2]. cbn [fst] in *.
    rewrite IH, stored_insert. done.
  - specialize (IH (<[ip req := stored t (ip req)]> t) Hrest).
    destruct (serve env net _ rest) as [rs t2]. cbn [fst] in *.
    rewrite IH, stored_insert. done.
Qed.

Lemma generate_missing env net (req : request) :
  truthy (model (body req)) && truthy (prompt (body req)) = false ->
  generate env net req = (missing_parameters, []).
Proof.
  intros H. unfold generate. cbn zeta.
  rewrite <- negb_andb, H. done.
Qed.

Lemma generate_invalid env net (req : request) :
  truthy (model (body req)) && truthy (prompt (body req)) = true ->
  property_truthy
    (get_property (API_ENDPOINTS env)
       (str_or (query_endpoint req) (DEFAULT_ENDPOINT env))) = false ->
  generate env net req =
    (invalid_endpoint (str_or (query_endpoint req) (DEFAULT_ENDPOINT env)), []).
Proof.
  intros H1 H2. unfold generate. cbn zeta.
  rewrite <- negb_andb, H1, H2. done.
Qed.

Lemma route_generate env net (req : request) :
  matched req = PostGenerate -> route env net req = generate env net req.
Proof. intros Hm. unfold route. by rewrite Hm. Qed.

(** C2.  For one client key the limiter admits a request exactly when
    fewer than [maxRequests] of the stored timestamps are strictly newer than
    [now - windowMs]; on admission it stores those timestamps followed by
    [now], on rejection the client's stored timestamps stay as they were and
    nothing is appended.  With a window of 60000 ms and 20 requests, twenty
    calls at time 0 are admitted, a twenty-first at time 0 is rejected, and a
    call at time 61000 is admitted again. *)
Theorem rate_limiter_sliding_window :
  (forall (rl : rate_limit) (t : tracking) (clientIp : string) (now : Z),
     let recent :=
       List.filter (fun timestamp => (now - windowMs rl <? timestamp)%Z)
         (stored t clientIp) in
     admitted (rateLimiter rl t clientIp now) =
       (List.length recent <? maxRequests rl)%nat /\
     rateLimiter rl t clientIp now =
       if (List.length recent <? maxRequests rl)%nat
       then (inr tt, <[clientIp := recent ++ [now]]> t)
       else (inl too_many_requests, <[clientIp := stored t clientIp]> t)) /\
  windowMs RATE_LIMIT = 60000%Z /\ maxRequests RATE_LIMIT = 20%nat /\
  (forall clientIp : string,
     fst (requests_at RATE_LIMIT ∅ clientIp
            (replicate 20 0%Z ++ [0%Z; 61000%Z])) =
       replicate 20 true ++ [false; true]).
Proof.
  split; [|split; [done|split; [done|]]].
  - intros rl t clientIp now recent. split.
    + apply admitted_unfold.
    + apply rateLimiter_unfold.
  - intros clientIp. rewrite requests_at_verdicts.
    unfold stored. rewrite lookup_empty. by vm_compute.
Qed.

(** C6.  In every state the gateway can be in, and for a positive window,
    an admission check leaves the checked client with exactly the timestamps
    that were newer than [now - windowMs] (followed by [now] when the request
    is admitted): all of them lie within the window, and that sequence is the
    one on record, whether the request was admitted or rejected. *)
Theorem stored_timestamps_within_window
    (rl : rate_limit) (t : tracking) (clientIp : string) (now : Z) :
  (0 < windowMs rl)%Z ->
  reachable rl t ->
  let after := snd (rateLimiter rl t clientIp now) in
  after !! clientIp =
    Some (in_window rl now (stored t clientIp) ++
          if admitted (rateLimiter rl t clientIp now) then [now] else []) /\
  Forall (fun timestamp => (now - windowMs rl < timestamp)%Z)
    (stored after clientIp).
Proof.
  intros Hpos Hreach after.
  assert (after !! clientIp =
            Some (in_window rl now (stored t clientIp) ++
                  if admitted (rateLimiter rl t clientIp now) then [now] else []))
    as Hafter.
  { subst after. rewrite admitted_unfold, rateLimiter_unfold. cbn zeta.
    destruct (Nat.ltb_spec (List.length (in_window rl now (stored t clientIp)))
                (maxRequests rl)) as [Hlt|Hge]; cbn [snd];
      rewrite lookup_insert_eq; [done|].
    rewrite app_nil_r. f_equal. symmetry. apply filter_full.
    pose proof (reachable_bounded rl t Hreach clientIp). unfold in_window in *. lia. }
  split; [done|].
  unfold stored. rewrite Hafter. cbn [default from_option]. unfold id.
  apply Forall_app. split; [apply in_window_Forall|].
  destruct (admitted _); [|by constructor].
  repeat constructor. lia.
Qed.

Lemma stored_timestamps_within_window_witness :
  let t := snd (rateLimiter RATE_LIMIT ∅ "203.0.113.7" 0) in
  let after := snd (rateLimiter RATE_LIMIT t "203.0.113.7" 61000) in
  after !! "203.0.113.7" =
    Some (in_window RATE_LIMIT 61000 (stored t "203.0.113.7") ++
          if admitted (rateLimiter RATE_LIMIT t "203.0.113.7" 61000)
          then [61000%Z] else []) /\
  Forall (fun timestamp => (61000 - windowMs RATE_LIMIT < timestamp)%Z)
    (stored after "203.0.113.7").
Proof.
  apply (stored_timestamps_within_window RATE_LIMIT
           (snd (rateLimiter RATE_LIMIT ∅ "203.0.113.7" 0)) "203.0.113.7" 61000).
  - reflexivity.
  - apply reachable_request, reachable_start.
Defined.

(** C10.  The rate limiter runs before the routes.  A request it admits
    has its arrival time appended to the client's window whatever the route
    then answers; on [POST /api/generate] that answer is the 400 for a
    missing model or prompt, or the 400 for an endpoint key without a
    Registry entry, and nothing is forwarded.  Twenty such invalid requests
    at time 0 use up the quota: a further request of the same client at time
    0 (other than a preflight) is answered 429, whatever it asks. *)
Theorem rate_limit_precedes_validation
    env net (t : tracking) (now : Z) (req : request) :
  admitted (rateLimiter RATE_LIMIT t (ip req) now) = true ->
  matched req = PostGenerate ->
  let key := str_or (query_endpoint req) (DEFAULT_ENDPOINT env) in
  let after :=
    <[ip req := in_window RATE_LIMIT now (stored t (ip req)) ++ [now]]> t in
  (truthy (model (body req)) && truthy (prompt (body req)) = false ->
   app env net t now req = (missing_parameters, [], after)) /\
  (truthy (model (body req)) && truthy (prompt (body req)) = true ->
   property_truthy (get_property (API_ENDPOINTS env) key) = false ->
   app env net t now req = (invalid_endpoint key, [], after)) /\
  (truthy (model (body req)) && truthy (prompt (body req)) = false ->
   forall next : request,
     ip next = ip req -> preflight next = false ->
     fst (serve env net ∅ (replicate 20 (0%Z, req) ++ [(0%Z, next)])) =
       replicate 20 missing_parameters ++ [too_many_requests]).
Proof.
  intros Hadm Hm key after.
  rewrite admitted_unfold in Hadm.
  split; [|split].
  - intros Hbad. rewrite app_unfold by (by apply post_not_preflight).
    cbn zeta. rewrite Hadm.
    rewrite route_generate, generate_missing by done. done.
  - intros Hgood Hkey. rewrite app_unfold by (by apply post_not_preflight).
    cbn zeta. rewrite Hadm.
    rewrite route_generate, generate_invalid by done. done.
  - intros Hbad next Hip Hnext.
    pose proof (post_not_preflight req Hm) as Hreq.
    rewrite (serve_responses env net (ip req)).
    + unfold stored. rewrite lookup_empty. cbn [default from_option].
      replace (List.map fst (replicate 20 (0%Z, req) ++ [(0%Z, next)]))
        with (replicate 20 0%Z ++ [0%Z]) by reflexivity.
      replace (window_verdicts RATE_LIMIT [] (replicate 20 0%Z ++ [0%Z]))
        with (replicate 20 true ++ [false]) by (by vm_compute).
      assert (fst (route env net req) = missing_parameters) as Hroute
        by (by rewrite route_generate, generate_missing).
      cbn -[route missing_parameters too_many_requests].
      rewrite Hroute. done.
    + apply Forall_app. split.
      * apply Forall_replicate. done.
      * by repeat constructor.
Qed.

Lemma rate_limit_precedes_validation_witness :
  app development upstream_down ∅ 0
      (post_generate "203.0.113.7" None (JsStr "") (JsStr "hi")) =
    (missing_parameters, [], <["203.0.113.7" := [0%Z]]> ∅).
Proof.
  destruct (rate_limit_precedes_validation development upstream_down ∅ 0
              (post_generate "203.0.113.7" None (JsStr "") (JsStr "hi")))
    as [H _]; [reflexivity | reflexivity |].
  apply H. reflexivity.
Defined.

(** C4, as the code has it.  A request that passes validation is forwarded
    once, and its outcome is mapped as follows: a reply with a status outside 2xx gives a
    response with that same status and the envelope [{error: "API Error",
    message, status}], where [message] is the upstream's [error] text (or a
    fixed text when the upstream sent none); no reply at all gives 504
    "Gateway Timeout"; a failure before anything was sent gives 500
    "Internal Server Error"; a 2xx reply is passed through with status 200. *)
Theorem forwarded_failure_mapping env net (req : request) :
  truthy (model (body req)) && truthy (prompt (body req)) = true ->
  let key := str_or (query_endpoint req) (DEFAULT_ENDPOINT env) in
  property_truthy (get_property (API_ENDPOINTS env) key) = true ->
  let call :=
    {| target := get_property (API_ENDPOINTS env) key; sent := body req;
       authorization := bearer env; call_timeout := 30000 |} in
  snd (generate env net req) = [call] /\
  match net call with
  | Replied r =>
      if validateStatus (up_status r) then
        fst (generate env net req) =
          {| code := 200; json := UpstreamJson (up_data r) |}
      else
        fst (generate env net req) =
          {| code := up_status r;
             json := ErrorJson "API Error"
                       (if truthy (data_error (up_data r))
                        then data_error (up_data r)
                        else JsStr "The API returned an error")
                       (Some (up_status r)) |}
  | NoResponse =>
      fst (generate env net req) =
        {| code := 504;
           json := ErrorJson "Gateway Timeout"
                     (JsStr "The API server is not responding") None |}
  | SetupFailure =>
      fst (generate env net req) =
        {| code := 500;
           json := ErrorJson "Internal Server Error"
                     (JsStr "An error occurred while processing your request")
                     None |}
  end.
Proof.
  intros Hvalid key Hkey call.
  unfold generate. cbn zeta. rewrite <- negb_andb, Hvalid. cbn [negb].
  fold key. rewrite Hkey. cbn [negb]. fold call.
  unfold axios_post.
  destruct (net call) as [r| |]; [|done..].
  destruct (validateStatus (up_status r)); done.
Qed.

Lemma forwarded_failure_mapping_witness :
  generate development upstream_busy
    (post_generate "203.0.113.7" None (JsStr "phi:latest") (JsStr "hi")) =
  ({| code := 503;
      json := ErrorJson "API Error" (JsStr "model is loading") (Some 503%nat) |},
   [ {| target := OwnValue "http://192.168.1.50:11434/api/generate";
        sent := body (post_generate "203.0.113.7" None
                        (JsStr "phi:latest") (JsStr "hi"));
        authorization := None; call_timeout := 30000 |} ]).
Proof.
  destruct (forwarded_failure_mapping development upstream_busy
              (post_generate "203.0.113.7" None (JsStr "phi:latest") (JsStr "hi")))
    as [Hcalls Hresponse]; [reflexivity | reflexivity |].
  apply injective_projections; [exact Hresponse | exact Hcalls].
Defined.

(** An upstream that answers 502 with an HTML page, as a reverse proxy
    does, has no [error] property in its data: the status is passed on, but
    the message of the envelope is the gateway's fixed text, not anything the
    upstream sent.  The same holds for an empty [error]. *)
Lemma upstream_message_replaced :
  let req := post_generate "203.0.113.7" None (JsStr "phi:latest") (JsStr "hi") in
  let page := {| up_status := 502;
                 up_data := Data JsUndefined "<html>502 Bad Gateway</html>" |} in
  let blank := {| up_status := 502; up_data := Data (JsStr "") "" |} in
  fst (generate development (fun _ => Replied page) req) =
    {| code := 502;
       json := ErrorJson "API Error" (JsStr "The API returned an error")
                 (Some 502%nat) |} /\
  fst (generate development (fun _ => Replied blank) req) =
    {| code := 502;
       json := ErrorJson "API Error" (JsStr "The API returned an error")
                 (Some 502%nat) |} /\
  JsStr "The API returned an error" <> data_error (up_data page) /\
  JsStr "The API returned an error" <> JsStr "<html>502 Bad Gateway</html>" /\
  JsStr "The API returned an error" <> data_error (up_data blank).
Proof. repeat split; try reflexivity; discriminate. Qed.

(** What the two checks of the handler do reject.  Of the requests the
    rate limiter lets through to [POST /api/generate]: one whose model or prompt is absent or empty is
    answered 400 "Missing parameters"; one with both present whose endpoint
    key (the query key, or the default role when that is absent or empty)
    names no entry of the Registry and no property inherited from
    [Object.prototype] is answered 400 "Invalid endpoint".  In both cases the
    request gets that one answer and no upstream call is made. *)
Theorem validation_rejects_without_forwarding
    env net (t : tracking) (now : Z) (req : request) :
  matched req = PostGenerate ->
  admitted (rateLimiter RATE_LIMIT t (ip req) now) = true ->
  let key := str_or (query_endpoint req) (DEFAULT_ENDPOINT env) in
  (truthy (model (body req)) && truthy (prompt (body req)) = false ->
   fst (app env net t now req) = (missing_parameters, [])) /\
  (truthy (model (body req)) && truthy (prompt (body req)) = true ->
   own_property (API_ENDPOINTS env) key = None ->
   existsb (String.eqb key) Object_prototype = false ->
   fst (app env net t now req) = (invalid_endpoint key, [])).
Proof.
  intros Hm Hadm key.
  rewrite admitted_unfold in Hadm.
  rewrite app_unfold by (by apply post_not_preflight).
  cbn zeta. rewrite Hadm. cbn [fst].
  rewrite route_generate by done.
  split.
  - intros Hbad. by rewrite generate_missing.
  - intros Hgood Hown Hproto. rewrite generate_invalid; [done..|].
    fold key. unfold get_property. by rewrite Hown, Hproto.
Qed.

Lemma validation_rejects_without_forwarding_witness :
  fst (app development upstream_down ∅ 0
         (post_generate "203.0.113.7" (Some "unknown")
            (JsStr "phi:latest") (JsStr "hi"))) =
    (invalid_endpoint "unknown", []).
Proof.
  destruct (validation_rejects_without_forwarding development upstream_down ∅ 0
              (post_generate "203.0.113.7" (Some "unknown")
                 (JsStr "phi:latest") (JsStr "hi")))
    as [_ H]; [reflexivity | reflexivity |].
  apply H; reflexivity.
Defined.

(** The parameter check comes first: a request with an empty model and an
    unregistered endpoint key is answered "Missing parameters", not
    "Invalid endpoint". *)
Lemma unknown_endpoint_with_missing_model :
  let req := post_generate "203.0.113.7" (Some "unknown") (JsStr "") (JsStr "hi") in
  own_property (API_ENDPOINTS development) "unknown" = None /\
  fst (app development upstream_down ∅ 0 req) = (missing_parameters, []) /\
  missing_parameters <> invalid_endpoint "unknown".
Proof. split; [reflexivity|]. split; [reflexivity|]. discriminate. Qed.

(** An empty query key is replaced by the default role and the request is
    forwarded. *)
Example empty_endpoint_key_is_forwarded :
  snd (fst (app development upstream_down ∅ 0
              (post_generate "203.0.113.7" (Some "")
                 (JsStr "phi:latest") (JsStr "hi")))) <> [].
Proof. discriminate. Qed.

(** A key that only names a property of [Object.prototype] passes the
    Registry test, and the handler calls axios with what it found there. *)
Example inherited_key_is_forwarded :
  own_property (API_ENDPOINTS development) "constructor" = None /\
  List.map target
    (snd (fst (app development upstream_down ∅ 0
                 (post_generate "203.0.113.7" (Some "constructor")
                    (JsStr "phi:latest") (JsStr "hi"))))) =
    [Inherited "constructor"].
Proof. split; reflexivity. Qed.

(** A client over its quota gets 429 before any validation. *)
Example rate_limited_before_validation :
  last (fst (serve development upstream_down ∅
               (replicate 21 (0%Z, post_generate "203.0.113.7" None
                                     (JsStr "") (JsStr "hi"))))) =
    Some too_many_requests.
Proof. by vm_compute. Qed.

(** C5.  A request with model and prompt whose endpoint key is
    [constructor] names no Registry entry, yet it is not answered 400
    "Invalid endpoint": [API_ENDPOINTS[endpointKey]] finds the property every
    object inherits, the check lets it pass, and the handler calls axios with
    what it found.  The answer then comes from the error mapping: 500 when
    axios fails before sending. *)
Theorem constructor_key_is_not_rejected
    (env : environment) (net : upstream_call -> transport) (clientIp : string) :
  let req :=
    post_generate clientIp (Some "constructor") (JsStr "phi:latest") (JsStr "hi") in
  let call :=
    {| target := Inherited "constructor"; sent := body req;
       authorization := bearer env; call_timeout := 30000 |} in
  own_property (API_ENDPOINTS env) "constructor" = None /\
  Object_keys (API_ENDPOINTS env) = ["local"; "production"] /\
  snd (generate env net req) = [call] /\
  fst (generate env net req) <> invalid_endpoint "constructor" /\
  code (fst (generate env net req)) =
    match net call with
    | Replied r => if validateStatus (up_status r) then 200%nat else up_status r
    | NoResponse => 504%nat
    | SetupFailure => 500%nat
    end /\
  fst (app env (fun _ => SetupFailure) ∅ 0 req) =
    ({| code := 500;
        json := ErrorJson "Internal Server Error"
                  (JsStr "An error occurred while processing your request")
                  None |}, [call]).
Proof.
  cbn zeta. split; [reflexivity|]. split; [reflexivity|].
  assert (generate env net
            (post_generate clientIp (Some "constructor") (JsStr "phi:latest")
               (JsStr "hi")) =
          (match axios_post net
                   {| target := Inherited "constructor";
                      sent := body (post_generate clientIp (Some "constructor")
                                      (JsStr "phi:latest") (JsStr "hi"));
                      authorization := bearer env; call_timeout := 30000 |} with
           | inl response => {| code := 200; json := UpstreamJson (up_data response) |}
           | inr error => on_error error
           end,
           [ {| target := Inherited "constructor";
                sent := body (post_generate clientIp (Some "constructor")
                                (JsStr "phi:latest") (JsStr "hi"));
                authorization := bearer env; call_timeout := 30000 |} ])) as ->.
  { unfold generate. cbn. by destruct (axios_post net _). }
  cbn [fst snd]. split; [done|].
  unfold axios_post, on_error.
  split; [|split].
  - destruct (net _) as [r| |]; [destruct (validateStatus (up_status r))|..];
      discriminate.
  - destruct (net _) as [r| |]; [destruct (validateStatus (up_status r))|..];
      reflexivity.
  - rewrite app_unfold by reflexivity. reflexivity.
Qed.

End ProxyTheory.

(** ** Properties of the failover client *)

Module ClientTheory.

Import Client.

(** *** What each step leaves untouched *)

Lemma display_eq status text b :
  display status text b =
    if status_elements b then set_status text (indicator_class status) b else b.
Proof.
  unfold display, updateConnectionStatus, status_elements.
  destruct (statusText b), (statusIndicator b); reflexivity.
Qed.

Lemma updateConnectionStatus_run status text b :
  updateConnectionStatus status text b = (Ok tt, display status text b).
Proof.
  unfold display, updateConnectionStatus.
  destruct (statusText b), (statusIndicator b); reflexivity.
Qed.

Lemma display_fields status text b :
  page (display status text b) = page b /\
  apiEndpoint (display status text b) = apiEndpoint b /\
  toasts (display status text b) = toasts b /\
  fetched (display status text b) = fetched b /\
  status_elements (display status text b) = status_elements b.
Proof.
  rewrite display_eq. unfold status_elements.
  destruct (statusText b) eqn:E1, (statusIndicator b) eqn:E2; cbn;
    rewrite ?E1, ?E2; auto.
Qed.

Lemma fetched_display status text b :
  fetched (display status text b) = fetched b.
Proof. apply display_fields. Qed.

Lemma apiEndpoint_display status text b :
  apiEndpoint (display status text b) = apiEndpoint b.
Proof. apply display_fields. Qed.

Lemma toasts_display status text b :
  toasts (display status text b) = toasts b.
Proof. apply display_fields. Qed.

Lemma page_display status text b : page (display status text b) = page b.
Proof. apply display_fields. Qed.

Lemma status_elements_display status text b :
  status_elements (display status text b) = status_elements b.
Proof. apply display_fields. Qed.

Lemma display_shows status text b :
  status_elements b = true -> shows status text (display status text b).
Proof. intros H. rewrite display_eq, H. split; reflexivity. Qed.

Lemma same_display_refl b : same_display b b.
Proof. split; auto. Qed.

Lemma same_display_trans b1 b2 b3 :
  same_display b1 b2 -> same_display b2 b3 -> same_display b1 b3.
Proof.
  intros [H1 H1'] [H2 H2']. split; [congruence|].
  intros H. rewrite H2' by congruence. auto.
Qed.

Lemma same_display_view b b' :
  status_view b' = status_view b -> same_display b b'.
Proof.
  intros H. split; [|auto].
  unfold status_view in H. unfold status_elements.
  injection H as -> ->. reflexivity.
Qed.

Lemma same_display_display status text b : same_display b (display status text b).
Proof.
  split; [apply status_elements_display|].
  intros H. by rewrite display_eq, H.
Qed.

(** Once something is displayed, what was displayed before is forgotten. *)
Lemma display_same status text b b' :
  same_display b b' ->
  status_view (display status text b') = status_view (display status text b).
Proof.
  intros [H1 H2]. rewrite !display_eq, H1.
  destruct (status_elements b); [reflexivity|]. auto.
Qed.

(** *** Endpoint selection *)

Section Facts.

Variable cfg : api_config.
Variable net : network.

Lemma getApiEndpoint_run b :
  getApiEndpoint cfg b =
    (Ok (resolve cfg (hostname b) (apiEndpoint b)),
     if item_missing (apiEndpoint b)
     then set_apiEndpoint (Some (resolve cfg (hostname b) (apiEndpoint b))) b
     else b).
Proof.
  unfold getApiEndpoint, resolve.
  destruct (item_missing (apiEndpoint b)); reflexivity.
Qed.

Lemma getApiEndpoint_fields b :
  let b' := snd (getApiEndpoint cfg b) in
  apiEndpoint b' = Some (resolve cfg (hostname b) (apiEndpoint b)) /\
  page b' = page b /\ status_view b' = status_view b /\
  toasts b' = toasts b /\ fetched b' = fetched b.
Proof.
  rewrite getApiEndpoint_run. cbn [snd]. unfold resolve.
  destruct (item_missing (apiEndpoint b)) eqn:E; [by cbn|].
  destruct (apiEndpoint b); [by cbn|discriminate].
Qed.

(** Resolving again gives the same endpoint. *)
Lemma resolve_idem host item :
  resolve cfg host (Some (resolve cfg host item)) = resolve cfg host item.
Proof.
  unfold resolve at 1. unfold item_missing at 1.
  destruct (string_nonempty (resolve cfg host item)) eqn:E; cbn [negb default from_option id].
  - reflexivity.
  - unfold resolve in *. destruct (item_missing item) eqn:Hm; [reflexivity|].
    destruct item as [v|]; [|discriminate]. cbn in *. by rewrite E in Hm.
Qed.

Lemma getApiEndpoint_cached b p :
  apiEndpoint b = Some p -> string_nonempty p = true ->
  getApiEndpoint cfg b = (Ok p, b).
Proof.
  intros H Hp. rewrite getApiEndpoint_run. unfold resolve.
  rewrite H. cbn. rewrite Hp. reflexivity.
Qed.

(** *** Fetches *)

Lemma fetch_run endpoint body b :
  fetch net endpoint body b =
    (match net (List.length (fetched b)) endpoint body with
     | Rejects e => Throw (FetchError e)
     | Resolves r => Ok r
     end, add_fetch (endpoint, body) b).
Proof. unfold fetch. by destruct (net _ _ _). Qed.

Lemma toast_fields type title text b :
  let b' := snd (toast type title text b) in
  apiEndpoint b' = apiEndpoint b /\ page b' = page b /\
  status_view b' = status_view b /\ fetched b' = fetched b.
Proof. unfold toast. cbn. by destruct (showToast b). Qed.

Lemma toast_if_authenticated_fields type title text b :
  exists b', toast_if_authenticated type title text b = (Ok tt, b') /\
  apiEndpoint b' = apiEndpoint b /\ page b' = page b /\
  status_view b' = status_view b /\ fetched b' = fetched b.
Proof.
  unfold toast_if_authenticated, isAuthenticationComplete, bind, when, toast, ret.
  destruct (showToast b) eqn:Ht; [|by eexists].
  destruct (authOverlay b) as [d|]; [destruct (String.eqb d "none")|];
    rewrite ?Ht; by eexists.
Qed.

(** *** The failover loop *)

Lemma try_fallbacks_cons endpoint rest b :
  try_fallbacks net (endpoint :: rest) b =
    if probe_succeeds (net (List.length (fetched b)) endpoint probe_body)
    then (Ok (Some endpoint),
          snd (toast "success" "Switched to alternate API server"
                 "Connection established"
                 (set_apiEndpoint (Some endpoint)
                    (add_fetch (endpoint, probe_body) b))))
    else try_fallbacks net rest (add_fetch (endpoint, probe_body) b).
Proof.
  cbn [try_fallbacks]. unfold bind at 1. unfold try_catch, bind at 1.
  rewrite fetch_run. unfold probe_succeeds.
  destruct (net _ _ _) as [e|r]; [reflexivity|].
  destruct (ok r); reflexivity.
Qed.

Lemma probe_calls_app l1 l2 :
  probe_calls (l1 ++ l2) = probe_calls l1 ++ probe_calls l2.
Proof. apply List.map_app. Qed.

Lemma probe_calls_not_attempts l :
  Forall (fun c => is_attempt c = false) (probe_calls l).
Proof. induction l; constructor; auto. Qed.

Lemma try_fallbacks_none fbs : forall b,
  no_probe_succeeds net (List.length (fetched b)) fbs = true ->
  exists b',
    try_fallbacks net fbs b = (Ok None, b') /\
    fetched b' = fetched b ++ probe_calls fbs /\
    apiEndpoint b' = apiEndpoint b /\ toasts b' = toasts b /\
    page b' = page b /\ status_view b' = status_view b.
Proof.
  induction fbs as [|e rest IH]; intros b H.
  - exists b. cbn. by rewrite app_nil_r.
  - cbn [no_probe_succeeds] in H. apply andb_prop in H as [H1 H2].
    apply negb_true_iff in H1.
    rewrite try_fallbacks_cons, H1.
    destruct (IH (add_fetch (e, probe_body) b)) as (b' & Hrun & Hf & Ha & Ht & Hp & Hs).
    { cbn [fetched add_fetch]. rewrite length_app. cbn [List.length].
      by rewrite Nat.add_1_r. }
    exists b'. split; [done|]. cbn [fetched add_fetch] in Hf.
    rewrite Hf, <- app_assoc. done.
Qed.

Lemma try_fallbacks_found pre f post : forall b,
  no_probe_succeeds net (List.length (fetched b)) pre = true ->
  probe_succeeds (net (List.length (fetched b) + List.length pre) f probe_body) = true ->
  exists b',
    try_fallbacks net (pre ++ f :: post) b = (Ok (Some f), b') /\
    fetched b' = fetched b ++ probe_calls (pre ++ [f]) /\
    apiEndpoint b' = Some f /\
    page b' = page b /\ status_view b' = status_view b.
Proof.
  induction pre as [|e rest IH]; intros b Hpre Hf.
  - cbn [app List.length] in *. rewrite Nat.add_0_r in Hf.
    rewrite try_fallbacks_cons, Hf. eexists. split; [reflexivity|].
    unfold toast. cbn. by destruct (showToast b).
  - cbn [no_probe_succeeds] in Hpre. apply andb_prop in Hpre as [H1 H2].
    apply negb_true_iff in H1.
    cbn [app]. rewrite try_fallbacks_cons, H1.
    destruct (IH (add_fetch (e, probe_body) b)) as (b' & Hrun & Hfe & Ha & Hp & Hs).
    { cbn [fetched add_fetch]. rewrite length_app. cbn [List.length].
      by rewrite Nat.add_1_r. }
    { cbn [fetched add_fetch]. rewrite length_app. cbn [List.length] in *.
      by replace (List.length (fetched b) + 1 + List.length rest)%nat
        with (List.length (fetched b) + S (List.length rest))%nat by lia. }
    exists b'. split; [done|]. cbn [fetched add_fetch] in Hfe.
    rewrite Hfe, <- app_assoc. done.
Qed.

(** The loop always ends, and all it sends are probes. *)
Lemma try_fallbacks_total fbs : forall b,
  exists found b' probes,
    try_fallbacks net fbs b = (Ok found, b') /\
    fetched b' = fetched b ++ probes /\
    Forall (fun c => is_attempt c = false) probes /\
    page b' = page b /\ status_view b' = status_view b.
Proof.
  induction fbs as [|e rest IH]; intros b.
  - exists None, b, []. cbn. by rewrite app_nil_r.
  - rewrite try_fallbacks_cons.
    destruct (probe_succeeds _).
    + eexists _, _, [(e, probe_body)]. split; [reflexivity|].
      unfold toast. cbn. destruct (showToast b); cbn; repeat split; by repeat constructor.
    + destruct (IH (add_fetch (e, probe_body) b)) as (found & b' & probes & Hrun & Hf & Hall & Hp & Hs).
      exists found, b', ((e, probe_body) :: probes). split; [done|].
      cbn [fetched add_fetch] in Hf. rewrite Hf, <- app_assoc.
      repeat split; try done. by constructor.
Qed.

Lemma getFallbackEndpoints_run b :
  getFallbackEndpoints cfg b =
    (Ok (fallbacks_of cfg (resolve cfg (hostname b) (apiEndpoint b))),
     snd (getApiEndpoint cfg b)).
Proof.
  unfold getFallbackEndpoints, bind. rewrite getApiEndpoint_run. reflexivity.
Qed.

Lemma tryNextEndpoint_total b :
  exists endpoint b' probes,
    tryNextEndpoint cfg net b = (Ok endpoint, b') /\
    fetched b' = fetched b ++ probes /\
    Forall (fun c => is_attempt c = false) probes /\
    page b' = page b /\ status_view b' = status_view b.
Proof.
  unfold tryNextEndpoint. unfold bind at 1. rewrite getFallbackEndpoints_run.
  destruct (getApiEndpoint_fields b) as (_ & Hp1 & Hs1 & _ & Hf1).
  cbn zeta in *. set (b1 := snd (getApiEndpoint cfg b)) in *.
  unfold bind at 1.
  destruct (try_fallbacks_total
              (fallbacks_of cfg (resolve cfg (hostname b) (apiEndpoint b))) b1)
    as (found & b2 & probes & Hrun & Hf2 & Hall & Hp2 & Hs2).
  rewrite Hrun. destruct found as [f|].
  - exists f, b2, probes. unfold ret. repeat split; congruence.
  - unfold bind, ret. 
    destruct (getApiEndpoint_fields b2) as (_ & Hp3 & Hs3 & _ & Hf3).
    cbn zeta in *. rewrite getApiEndpoint_run in *. cbn [snd] in *.
    eexists _, _, probes. split; [reflexivity|]. repeat split; congruence.
Qed.

Lemma page_hostname b b' : page b' = page b -> hostname b' = hostname b.
Proof. unfold page. congruence. Qed.

Lemma tryNextEndpoint_found b pre f post :
  fallbacks_of cfg (resolve cfg (hostname b) (apiEndpoint b)) = pre ++ f :: post ->
  no_probe_succeeds net (List.length (fetched b)) pre = true ->
  probe_succeeds (net (List.length (fetched b) + List.length pre) f probe_body) = true ->
  exists b',
    tryNextEndpoint cfg net b = (Ok f, b') /\
    apiEndpoint b' = Some f /\
    fetched b' = fetched b ++ probe_calls (pre ++ [f]) /\
    page b' = page b /\ status_view b' = status_view b.
Proof.
  intros Hfbs Hpre Hf.
  unfold tryNextEndpoint. unfold bind at 1. rewrite getFallbackEndpoints_run.
  destruct (getApiEndpoint_fields b) as (_ & Hp1 & Hs1 & _ & Hf1).
  cbn zeta in *. set (b1 := snd (getApiEndpoint cfg b)) in *.
  unfold bind at 1. rewrite Hfbs.
  destruct (try_fallbacks_found pre f post b1) as (b2 & Hrun & Hf2 & Ha2 & Hp2 & Hs2);
    [by rewrite Hf1..|].
  rewrite Hrun. exists b2. unfold ret. repeat split; congruence.
Qed.

Lemma tryNextEndpoint_none b :
  no_probe_succeeds net (List.length (fetched b))
    (fallbacks_of cfg (resolve cfg (hostname b) (apiEndpoint b))) = true ->
  exists b',
    tryNextEndpoint cfg net b = (Ok (resolve cfg (hostname b) (apiEndpoint b)), b') /\
    apiEndpoint b' = Some (resolve cfg (hostname b) (apiEndpoint b)) /\
    fetched b' =
      fetched b ++
      probe_calls (fallbacks_of cfg (resolve cfg (hostname b) (apiEndpoint b))) /\
    toasts b' = toasts b /\
    page b' = page b /\ status_view b' = status_view b.
Proof.
  intros Hnone.
  unfold tryNextEndpoint. unfold bind at 1. rewrite getFallbackEndpoints_run.
  destruct (getApiEndpoint_fields b) as (Ha1 & Hp1 & Hs1 & Ht1 & Hf1).
  cbn zeta in *. set (b1 := snd (getApiEndpoint cfg b)) in *.
  unfold bind at 1.
  destruct (try_fallbacks_none
              (fallbacks_of cfg (resolve cfg (hostname b) (apiEndpoint b))) b1)
    as (b2 & Hrun & Hf2 & Ha2 & Ht2 & Hp2 & Hs2); [by rewrite Hf1|].
  rewrite Hrun. unfold bind, ret.
  destruct (getApiEndpoint_fields b2) as (Ha3 & Hp3 & Hs3 & Ht3 & Hf3).
  cbn zeta in *. rewrite (getApiEndpoint_run b2) in *. cbn [snd] in *.
  assert (resolve cfg (hostname b2) (apiEndpoint b2) =
          resolve cfg (hostname b) (apiEndpoint b)) as Hsame.
  { rewrite (page_hostname b b2) by congruence.
    rewrite Ha2, Ha1. apply resolve_idem. }
  rewrite Hsame in *.
  eexists. split; [reflexivity|]. repeat split; congruence.
Qed.

(** *** The liveness probe *)

Lemma shows_of_view status text b b' :
  status_view b' = status_view (display status text b) ->
  status_elements b = true -> shows status text b'.
Proof.
  intros Hv He. pose proof (display_shows status text b He) as [H1 H2].
  unfold status_view in Hv. injection Hv as Ht Hi.
  split; congruence.
Qed.

Lemma same_display_add_fetch b b' c :
  same_display b b' -> same_display b (add_fetch c b').
Proof.
  intros H. eapply same_display_trans; [exact H|].
  by apply same_display_view.
Qed.

Lemma same_display_getApiEndpoint b :
  same_display b (snd (getApiEndpoint cfg b)).
Proof. apply same_display_view, getApiEndpoint_fields. Qed.

(** What the [catch] block of the probe displays. *)
Lemma checkApiStatus_run b :
  let outcome :=
    net (List.length (fetched b)) (resolve cfg (hostname b) (apiEndpoint b))
      probe_body in
  exists b',
    checkApiStatus cfg net b = (Ok (probe_succeeds outcome), b') /\
    status_view b' =
      match outcome with
      | Resolves r =>
          if ok r then status_view (display "online" "AI Online" b)
          else status_view (display "warning" "API Limited" b)
      | Rejects e =>
          if String.eqb (name e) "AbortError"
          then status_view (display "offline" "Connection Timeout" b)
          else if includes (message e) "NetworkError"
          then status_view (display "offline" "Network Error" b)
          else status_view (display "offline" "AI Offline" b)
      end.
Proof.
  cbn zeta. unfold checkApiStatus. unfold bind at 1.
  rewrite getApiEndpoint_run. cbn [fst snd].
  pose proof (same_display_getApiEndpoint b) as Hd1.
  destruct (getApiEndpoint_fields b) as (_ & _ & _ & _ & Hf1).
  rewrite getApiEndpoint_run in Hd1, Hf1. cbn [snd] in Hd1, Hf1. cbn zeta in Hf1.
  set (b1 := if item_missing (apiEndpoint b) then _ else b) in *.
  unfold try_catch. unfold bind at 1. rewrite updateConnectionStatus_run.
  unfold bind at 1. rewrite fetch_run, fetched_display, Hf1.
  set (b2 := add_fetch _ (display "warning" "Checking API..." b1)).
  assert (same_display b b2) as Hd2.
  { apply same_display_add_fetch.
    eapply same_display_trans; [exact Hd1|apply same_display_display]. }
  destruct (net _ _ _) as [e|r]; cbn [probe_succeeds].
  - (* the fetch rejects *)
    unfold bind at 1. cbn [is_abort is_network_error].
    assert (exists text,
              (if String.eqb (name e) "AbortError"
               then updateConnectionStatus "offline" "Connection Timeout"
               else if includes (message e) "NetworkError"
               then updateConnectionStatus "offline" "Network Error"
               else updateConnectionStatus "offline" "AI Offline") b2 =
              (Ok tt, display "offline" text b2) /\
              (if String.eqb (name e) "AbortError"
               then status_view (display "offline" "Connection Timeout" b)
               else if includes (message e) "NetworkError"
               then status_view (display "offline" "Network Error" b)
               else status_view (display "offline" "AI Offline" b)) =
              status_view (display "offline" text b)) as (text & -> & ->).
    { destruct (String.eqb (name e) "AbortError");
        [|destruct (includes (message e) "NetworkError")];
        eexists; split; try apply updateConnectionStatus_run; reflexivity. }
    unfold bind at 1.
    destruct (toast_if_authenticated_fields "error" "API Connection Failed"
                "Could not connect to AI service" (display "offline" text b2))
      as (b3 & -> & _ & _ & Hs3 & _).
    unfold bind, detached, ret. cbn [fst snd].
    destruct (tryNextEndpoint_total b3) as (ep & b4 & probes & Hrun & _ & _ & _ & Hs4).
    rewrite Hrun. cbn [snd]. eexists. split; [reflexivity|].
    rewrite Hs4, Hs3. by apply display_same.
  - destruct (ok r).
    + unfold bind, ret. rewrite updateConnectionStatus_run.
      eexists. split; [reflexivity|]. by apply display_same.
    + unfold bind at 1. rewrite updateConnectionStatus_run.
      unfold bind at 1.
      destruct (toast_if_authenticated_fields "warning" "API Limited"
                  "The AI service is experiencing limitations"
                  (display "warning" "API Limited" b2))
        as (b3 & -> & _ & _ & Hs3 & _).
      unfold ret. eexists. split; [reflexivity|].
      rewrite Hs3. by apply display_same.
Qed.

(** *** One iteration of the generation call *)

Lemma attempt_fails endpoint rb b e :
  attempt_error (net (List.length (fetched b)) endpoint rb) = Some e ->
  attempt net endpoint rb b = (Throw e, add_fetch (endpoint, rb) b).
Proof.
  unfold attempt, attempt_error, bind. rewrite fetch_run.
  destruct (net _ _ _) as [e'|r]; [congruence|].
  destruct (ok r); cbn [negb]; [|unfold throw; congruence].
  destruct (body r) as [e'|d]; [unfold throw; congruence|].
  destruct (truthy (error d)); [unfold throw; congruence|discriminate].
Qed.

Lemma attempt_succeeds endpoint rb b r d :
  net (List.length (fetched b)) endpoint rb = Resolves r ->
  ok r = true -> body r = Json d -> truthy (error d) = false ->
  attempt net endpoint rb b =
    (Ok d, display "online" "AI Online" (add_fetch (endpoint, rb) b)).
Proof.
  intros Hnet Hok Hbody Herr.
  unfold attempt, bind. rewrite fetch_run, Hnet, Hok. cbn [negb].
  rewrite Hbody, Herr, updateConnectionStatus_run. reflexivity.
Qed.

Lemma attempt_total endpoint rb b :
  exists o b',
    attempt net endpoint rb b = (o, b') /\
    fetched b' = fetched b ++ [(endpoint, rb)].
Proof.
  destruct (attempt_error (net (List.length (fetched b)) endpoint rb)) as [e|] eqn:E.
  - rewrite (attempt_fails _ _ _ _ E). by eexists _, _.
  - unfold attempt_error in E.
    destruct (net _ _ _) as [e'|r] eqn:Hnet; [discriminate|].
    destruct (ok r) eqn:Hok; [|discriminate]. cbn [negb] in E.
    destruct (body r) as [e'|d] eqn:Hbody; [discriminate|].
    destruct (truthy (error d)) eqn:Herr; [discriminate|].
    rewrite (attempt_succeeds _ _ _ _ _ Hnet Hok Hbody Herr).
    eexists _, _. split; [reflexivity|]. by rewrite fetched_display.
Qed.

Lemma recover_run maxAttempts endpoint attempts e b :
  exists next b' probes,
    fetched b' = fetched b ++ probes /\
    Forall (fun c => is_attempt c = false) probes /\
    ((maxAttempts <= S attempts)%nat /\
     recover cfg net maxAttempts endpoint attempts e b = (Throw e, b') /\
     status_view b' = status_view (display "offline" "Connection Failed" b)
     \/
     (S attempts < maxAttempts)%nat /\
     recover cfg net maxAttempts endpoint attempts e b = (Ok (next, S attempts), b') /\
     same_display b b').
Proof.
  assert (exists next b1 probes,
            (if retries_used_up (S attempts) (retryCount (settings cfg))
             then do next <- tryNextEndpoint cfg net;
                  updateConnectionStatus "warning" "Switching endpoints...";;
                  ret next
             else if (S attempts <? maxAttempts)%nat
             then updateConnectionStatus "warning" "Retrying connection...";;
                  ret endpoint
             else ret endpoint) b = (Ok next, b1) /\
            fetched b1 = fetched b ++ probes /\
            Forall (fun c => is_attempt c = false) probes /\
            same_display b b1) as (next & b1 & probes & Hstep & Hf & Hall & Hd).
  { destruct (retries_used_up _ _).
    - destruct (tryNextEndpoint_total b) as (ep & b1 & probes & Hrun & Hf & Hall & _ & Hs).
      unfold bind. rewrite Hrun, updateConnectionStatus_run. unfold ret.
      eexists _, _, probes. split; [reflexivity|].
      rewrite fetched_display. split; [done|]. split; [done|].
      eapply same_display_trans; [by apply same_display_view|].
      apply same_display_display.
    - destruct (_ <? _)%nat.
      + unfold bind. rewrite updateConnectionStatus_run. unfold ret.
        eexists _, _, []. split; [reflexivity|].
        rewrite fetched_display, app_nil_r. split; [done|]. split; [done|].
        apply same_display_display.
      + unfold ret. eexists _, _, []. split; [reflexivity|].
        rewrite app_nil_r. split; [done|]. split; [done|]. apply same_display_refl. }
  assert (recover cfg net maxAttempts endpoint attempts e b =
            if (maxAttempts <=? S attempts)%nat
            then (Throw e, display "offline" "Connection Failed" b1)
            else (Ok (next, S attempts), b1)) as ->.
  { unfold recover. cbn zeta. unfold bind at 1. rewrite Hstep.
    destruct (_ <=? _)%nat; [|reflexivity].
    unfold bind, throw. by rewrite updateConnectionStatus_run. }
  destruct (Nat.leb_spec maxAttempts (S attempts)) as [Hle|Hlt].
  - eexists next, _, probes. rewrite fetched_display.
    split; [done|]. split; [done|]. left.
    split; [done|]. split; [reflexivity|]. by apply display_same.
  - exists next, b1, probes.
    split; [done|]. split; [done|]. right. done.
Qed.

(** *** The retry loop *)

Lemma attempts_loop_step fuel maxAttempts rb endpoint attempts b :
  (attempts < maxAttempts)%nat ->
  attempts_loop cfg net (S fuel) maxAttempts rb endpoint attempts b =
    match attempt net endpoint rb b with
    | (Ok d, b1) => (Ok (Returned d), b1)
    | (Throw e, b1) =>
        match recover cfg net maxAttempts endpoint attempts e b1 with
        | (Ok (endpoint', attempts'), b2) =>
            attempts_loop cfg net fuel maxAttempts rb endpoint' attempts' b2
        | (Throw e', b2) => (Throw e', b2)
        end
    end.
Proof.
  intros Hlt. apply Nat.ltb_lt in Hlt. cbn [attempts_loop]. rewrite Hlt.
  unfold bind, try_catch, ret.
  destruct (attempt net endpoint rb b) as [[d|e] b1]; [reflexivity|].
  destruct (recover cfg net maxAttempts endpoint attempts e b1)
    as [[[endpoint' attempts']|e'] b2]; reflexivity.
Qed.

Lemma attempts_loop_exit fuel maxAttempts rb endpoint attempts b :
  (maxAttempts <= attempts)%nat ->
  attempts_loop cfg net fuel maxAttempts rb endpoint attempts b =
    (Ok ReturnedUndefined, b).
Proof.
  intros Hge. apply Nat.ltb_ge in Hge.
  destruct fuel; cbn [attempts_loop]; by rewrite Hge.
Qed.

Lemma no_attempts_filter l :
  Forall (fun c => is_attempt c = false) l -> List.filter is_attempt l = [].
Proof.
  induction 1 as [|c l Hc _ IH]; [done|]. cbn. by rewrite Hc.
Qed.

Lemma count_attempts (l probes : list (string * request_body)) c :
  is_attempt c = true ->
  Forall (fun c => is_attempt c = false) probes ->
  List.length (List.filter is_attempt (l ++ c :: probes)) =
    S (List.length (List.filter is_attempt l)).
Proof.
  intros Hc Hp. rewrite List.filter_app, length_app. cbn [List.filter].
  rewrite Hc, (no_attempts_filter _ Hp). cbn. lia.
Qed.

(** With enough fuel, a call whose attempts all fail makes
    [maxAttempts - attempts] more of them and rethrows the error of the
    last. *)
Lemma attempts_loop_exhausts maxAttempts rb :
  (forall endpoint, is_attempt (endpoint, rb) = true) ->
  (forall i url, attempt_error (net i url rb) <> None) ->
  forall fuel endpoint attempts b,
    (attempts < maxAttempts)%nat ->
    (maxAttempts - attempts <= fuel)%nat ->
    exists e b' before url probes,
      attempts_loop cfg net fuel maxAttempts rb endpoint attempts b = (Throw e, b') /\
      fetched b' = before ++ (url, rb) :: probes /\
      Forall (fun c => is_attempt c = false) probes /\
      attempt_error (net (List.length before) url rb) = Some e /\
      attempts_made b' = (attempts_made b + (maxAttempts - attempts))%nat /\
      status_view b' = status_view (display "offline" "Connection Failed" b).
Proof.
  intros Hrb Hfail. induction fuel as [|fuel IH]; intros endpoint attempts b Hlt Hfuel;
    [lia|].
  rewrite attempts_loop_step by done.
  destruct (attempt_error (net (List.length (fetched b)) endpoint rb)) as [e|] eqn:He;
    [|by apply Hfail in He].
  rewrite (attempt_fails _ _ _ _ He).
  destruct (recover_run maxAttempts endpoint attempts e (add_fetch (endpoint, rb) b))
    as (next & b2 & probes & Hf & Hall & [(Hlast & -> & Hview)|(Hmore & -> & Hd)]).
  - exists e, b2, (fetched b), endpoint, probes.
    cbn [fetched add_fetch] in Hf. rewrite <- app_assoc in Hf. cbn [app] in Hf.
    split; [done|]. split; [done|]. split; [done|]. split; [done|]. split.
    + unfold attempts_made. rewrite Hf, count_attempts by done. lia.
    + rewrite Hview. apply display_same. by apply same_display_view.
  - destruct (IH next (S attempts) b2) as (e' & b' & before & url & probes' & Hrun & Hf' & Hall' & He' & Hcount & Hview);
      [lia..|].
    exists e', b', before, url, probes'.
    split; [done|]. split; [done|]. split; [done|]. split; [done|]. split.
    + rewrite Hcount. unfold attempts_made at 1.
      cbn [fetched add_fetch] in Hf. rewrite <- app_assoc in Hf. cbn [app] in Hf.
      rewrite Hf, count_attempts by done. unfold attempts_made. lia.
    + rewrite Hview. apply display_same.
      eapply same_display_trans; [|exact Hd]. by apply same_display_view.
Qed.

(** Whatever the network does, the loop ends within [maxAttempts]
    iterations, and every generation request it sends is [rb]. *)
Lemma attempts_loop_calls maxAttempts rb :
  forall fuel endpoint attempts b,
    (maxAttempts - attempts <= fuel)%nat ->
    exists o b' calls,
      attempts_loop cfg net fuel maxAttempts rb endpoint attempts b = (o, b') /\
      o <> Ok Unfinished /\
      fetched b' = fetched b ++ calls /\
      Forall (fun c => is_attempt c = true -> snd c = rb) calls /\
      ((attempts < maxAttempts)%nat -> calls !! 0%nat = Some (endpoint, rb)).
Proof.
  induction fuel as [|fuel IH]; intros endpoint attempts b Hfuel.
  - rewrite attempts_loop_exit by lia. exists (Ok ReturnedUndefined), b, [].
    rewrite app_nil_r. split; [done|]. split; [done|]. split; [done|].
    split; [constructor|lia].
  - destruct (Nat.lt_ge_cases attempts maxAttempts) as [Hlt|Hge].
    2:{ rewrite attempts_loop_exit by lia. exists (Ok ReturnedUndefined), b, [].
        rewrite app_nil_r. split; [done|]. split; [done|]. split; [done|].
        split; [constructor|lia]. }
    rewrite attempts_loop_step by done.
    destruct (attempt_total endpoint rb b) as (o1 & b1 & -> & Hf1).
    destruct o1 as [d|e].
    + eexists _, b1, [(endpoint, rb)]. split; [reflexivity|].
      split; [done|]. split; [done|]. split; [|done].
      by repeat constructor.
    + destruct (recover_run maxAttempts endpoint attempts e b1)
        as (next & b2 & probes & Hf & Hall & [(Hlast & -> & Hview)|(Hmore & -> & Hd)]).
      * eexists _, b2, ((endpoint, rb) :: probes). split; [reflexivity|].
        split; [done|]. rewrite Hf, Hf1, <- app_assoc. split; [done|].
        split; [|done]. constructor; [done|].
        eapply Forall_impl; [exact Hall|]. cbn beta. intros c Hc. by rewrite Hc.
      * destruct (IH next (S attempts) b2) as (o & b' & calls & Hrun & Ho & Hf' & Hall' & _);
          [lia|].
        exists o, b', ((endpoint, rb) :: probes ++ calls). split; [done|].
        split; [done|]. split.
        { rewrite Hf', Hf, Hf1, <- !app_assoc. done. }
        split; [|done]. constructor; [done|]. apply Forall_app. split; [|done].
        eapply Forall_impl; [exact Hall|]. cbn beta. intros c Hc. by rewrite Hc.
Qed.

Lemma recover_retry maxAttempts endpoint attempts e b :
  retries_used_up (S attempts) (retryCount (settings cfg)) = false ->
  (S attempts < maxAttempts)%nat ->
  recover cfg net maxAttempts endpoint attempts e b =
    (Ok (endpoint, S attempts), display "warning" "Retrying connection..." b).
Proof.
  intros Hr Hlt. unfold recover. cbn zeta. rewrite Hr.
  destruct (Nat.ltb_spec (S attempts) maxAttempts) as [_|]; [|lia].
  destruct (Nat.leb_spec maxAttempts (S attempts)) as [|_]; [lia|].
  unfold bind, ret. by rewrite updateConnectionStatus_run.
Qed.

Lemma recover_switch maxAttempts endpoint attempts e b next b1 :
  retries_used_up (S attempts) (retryCount (settings cfg)) = true ->
  (S attempts < maxAttempts)%nat ->
  tryNextEndpoint cfg net b = (Ok next, b1) ->
  recover cfg net maxAttempts endpoint attempts e b =
    (Ok (next, S attempts), display "warning" "Switching endpoints..." b1).
Proof.
  intros Hr Hlt Hnext. unfold recover. cbn zeta. rewrite Hr.
  destruct (Nat.leb_spec maxAttempts (S attempts)) as [|_]; [lia|].
  unfold bind, ret. by rewrite Hnext, updateConnectionStatus_run.
Qed.

Lemma hostname_display status text b :
  hostname (display status text b) = hostname b.
Proof. apply page_hostname, page_display. Qed.

End Facts.

(** C7.  [tryNextEndpoint] probes the fallback endpoints, which are the
    Registry entries other than the cached endpoint in Registry order, one
    after the other.  The first that answers with an OK status is stored as
    the session's endpoint and returned, and nothing after it is probed.  If
    none does, all of them have been probed, the session's endpoint is the
    one it was, and that endpoint is returned. *)
Theorem failover_in_registry_order (cfg : api_config) (net : network) (b : browser) :
  let primary := resolve cfg (hostname b) (apiEndpoint b) in
  let fallbacks :=
    List.filter (fun endpoint => negb (String.eqb endpoint primary))
      (Object_values (endpoints cfg)) in
  let start := List.length (fetched b) in
  let after := snd (tryNextEndpoint cfg net b) in
  (forall cached, apiEndpoint b = Some cached -> string_nonempty cached = true ->
     primary = cached) /\
  fst (getFallbackEndpoints cfg b) = Ok fallbacks /\
  (forall pre f post,
     fallbacks = pre ++ f :: post ->
     no_probe_succeeds net start pre = true ->
     probe_succeeds (net (start + List.length pre)%nat f probe_body) = true ->
     fst (tryNextEndpoint cfg net b) = Ok f /\
     apiEndpoint after = Some f /\
     fetched after = fetched b ++ probe_calls (pre ++ [f])) /\
  (no_probe_succeeds net start fallbacks = true ->
     fst (tryNextEndpoint cfg net b) = Ok primary /\
     apiEndpoint after = Some primary /\
     (item_missing (apiEndpoint b) = false -> apiEndpoint after = apiEndpoint b) /\
     fetched after = fetched b ++ probe_calls fallbacks).
Proof.
  intros primary fallbacks start after.
  split; [|split; [|split]].
  - intros cached Hc Hne. subst primary. unfold resolve.
    rewrite Hc. cbn. by rewrite Hne.
  - by rewrite getFallbackEndpoints_run.
  - intros pre f post Hfbs Hpre Hf.
    destruct (tryNextEndpoint_found cfg net b pre f post) as (b' & Hrun & Ha & Hfe & _);
      [done..|].
    subst after. rewrite Hrun. done.
  - intros Hnone.
    destruct (tryNextEndpoint_none cfg net b Hnone) as (b' & Hrun & Ha & Hfe & _).
    subst after. rewrite Hrun. cbn [fst snd].
    repeat split; try done.
    intros Hset. rewrite Ha. subst primary. unfold resolve. rewrite Hset.
    destruct (apiEndpoint b); [done|discriminate].
Qed.

Lemma failover_in_registry_order_witness :
  fst (tryNextEndpoint ApiConfig only_local remote_session) =
    Ok "http://192.168.1.50:11434/api/generate" /\
  apiEndpoint (snd (tryNextEndpoint ApiConfig only_local remote_session)) =
    Some "http://192.168.1.50:11434/api/generate" /\
  fetched (snd (tryNextEndpoint ApiConfig only_local remote_session)) =
    fetched remote_session ++
    probe_calls ([] ++ ["http://192.168.1.50:11434/api/generate"]).
Proof.
  destruct (failover_in_registry_order ApiConfig only_local remote_session)
    as (_ & _ & Hfound & _).
  apply (Hfound [] "http://192.168.1.50:11434/api/generate" []); reflexivity.
Defined.

(** C8.  [checkApiStatus] always returns a boolean, it never throws.  When
    the probe runs into the abort timer it returns [false] and the status
    reads offline, "Connection Timeout", whatever it read before; when the
    probe is answered with an OK status it returns [true] and the status
    reads online, "AI Online", also when it read offline before. *)
Theorem probe_never_throws (cfg : api_config) (net : network) (b : browser) :
  let endpoint := resolve cfg (hostname b) (apiEndpoint b) in
  let outcome := net (List.length (fetched b)) endpoint probe_body in
  let after := snd (checkApiStatus cfg net b) in
  (exists online, fst (checkApiStatus cfg net b) = Ok online) /\
  (forall e, outcome = Rejects e -> name e = "AbortError" ->
     fst (checkApiStatus cfg net b) = Ok false /\
     status_view after =
       status_view (display "offline" "Connection Timeout" b) /\
     (status_elements b = true ->
      shows "offline" "Connection Timeout" after)) /\
  (probe_succeeds outcome = true ->
     fst (checkApiStatus cfg net b) = Ok true /\
     status_view after = status_view (display "online" "AI Online" b) /\
     (status_elements b = true -> shows "online" "AI Online" after)).
Proof.
  intros endpoint outcome after.
  destruct (checkApiStatus_run cfg net b) as (b' & Hrun & Hview).
  cbn zeta in Hrun, Hview. fold endpoint in Hrun, Hview.
  fold outcome in Hrun, Hview.
  subst after. rewrite Hrun. cbn [fst snd].
  split; [by eexists|]. split.
  - intros e He Hname. rewrite He in Hview |- *. rewrite Hname in Hview.
    cbn [String.eqb] in Hview.
    change (String.eqb "AbortError" "AbortError") with true in Hview.
    cbn [probe_succeeds]. split; [done|]. split; [done|].
    by apply shows_of_view.
  - intros Hok. rewrite Hok. split; [done|].
    destruct outcome as [e|r]; [discriminate|].
    cbn [probe_succeeds] in Hok. rewrite Hok in Hview.
    split; [done|]. by apply shows_of_view.
Qed.

Lemma probe_never_throws_witness :
  fst (checkApiStatus ApiConfig all_slow remote_session) = Ok false /\
  status_view (snd (checkApiStatus ApiConfig all_slow remote_session)) =
    status_view (display "offline" "Connection Timeout" remote_session) /\
  shows "offline" "Connection Timeout"
    (snd (checkApiStatus ApiConfig all_slow remote_session)).
Proof.
  destruct (probe_never_throws ApiConfig all_slow remote_session)
    as (_ & Htimeout & _).
  destruct (Htimeout {| name := "AbortError";
                        message := "The user aborted a request." |})
    as (Hfalse & Hview & Hshows); [reflexivity | reflexivity |].
  split; [exact Hfalse|]. split; [exact Hview|]. apply Hshows. reflexivity.
Defined.

(** C1, as the code has it.  With at least one retry configured, a call
    whose generation attempts all fail makes exactly [retryCount * 2]
    attempts, the factor two being fixed whatever the number of Registry
    entries (so four with the default [retryCount] of two, and
    [retryCount] times the number of endpoints for a Registry of two).  It
    then displays offline, "Connection Failed", and throws the error of its
    last attempt; after that attempt only probes were sent. *)
Theorem exhausted_call_goes_offline
    (cfg : api_config) (net : network) (model prompt : string)
    (options : call_options) (b : browser) :
  (1 <= retryCount (settings cfg))%nat ->
  (forall i url,
     attempt_error (net i url (build_request model prompt options)) <> None) ->
  let after := snd (callOllamaApi cfg net model prompt options b) in
  exists e before url probes,
    fst (callOllamaApi cfg net model prompt options b) = Throw e /\
    attempts_made after = (attempts_made b + retryCount (settings cfg) * 2)%nat /\
    fetched after = before ++ (url, build_request model prompt options) :: probes /\
    Forall (fun c => is_attempt c = false) probes /\
    attempt_error
      (net (List.length before) url (build_request model prompt options)) = Some e /\
    status_view after = status_view (display "offline" "Connection Failed" b) /\
    (status_elements b = true -> shows "offline" "Connection Failed" after).
Proof.
  intros Hr Hfail after. subst after.
  unfold callOllamaApi, bind. rewrite getApiEndpoint_run. cbn zeta.
  destruct (getApiEndpoint_fields cfg b) as (_ & _ & Hs1 & _ & Hf1).
  rewrite getApiEndpoint_run in Hs1, Hf1. cbn [snd] in Hs1, Hf1. cbn zeta in Hs1, Hf1.
  set (b1 := if item_missing (apiEndpoint b) then _ else b) in *.
  destruct (attempts_loop_exhausts cfg net (retryCount (settings cfg) * 2)
              (build_request model prompt options)
              (fun _ => eq_refl) Hfail
              (retryCount (settings cfg) * 2)%nat
              (resolve cfg (hostname b) (apiEndpoint b)) 0%nat b1)
    as (e & b' & before & url & probes & Hrun & Hf & Hall & He & Hcount & Hview);
    [lia..|].
  rewrite Hrun. cbn [fst snd].
  assert (status_view b' = status_view (display "offline" "Connection Failed" b))
    as Hview'.
  { rewrite Hview. apply display_same. by apply same_display_view. }
  exists e, before, url, probes.
  split; [done|]. split.
  { rewrite Hcount. unfold attempts_made. rewrite Hf1. lia. }
  split; [done|]. split; [done|]. split; [done|]. split; [done|].
  by apply shows_of_view.
Qed.

Lemma exhausted_call_goes_offline_witness :
  exists e before url probes,
    fst (callOllamaApi ApiConfig all_down "phi:latest" "hi" no_options
           remote_session) = Throw e /\
    attempts_made
      (snd (callOllamaApi ApiConfig all_down "phi:latest" "hi" no_options
              remote_session)) =
      (attempts_made remote_session + retryCount (settings ApiConfig) * 2)%nat /\
    fetched
      (snd (callOllamaApi ApiConfig all_down "phi:latest" "hi" no_options
              remote_session)) =
      before ++ (url, build_request "phi:latest" "hi" no_options) :: probes /\
    Forall (fun c => is_attempt c = false) probes /\
    attempt_error
      (all_down (List.length before) url
         (build_request "phi:latest" "hi" no_options)) = Some e /\
    status_view
      (snd (callOllamaApi ApiConfig all_down "phi:latest" "hi" no_options
              remote_session)) =
      status_view (display "offline" "Connection Failed" remote_session) /\
    shows "offline" "Connection Failed"
      (snd (callOllamaApi ApiConfig all_down "phi:latest" "hi" no_options
              remote_session)).
Proof.
  destruct (exhausted_call_goes_offline ApiConfig all_down "phi:latest" "hi"
              no_options remote_session)
    as (e & before & url & probes & H1 & H2 & H3 & H4 & H5 & H6 & H7).
  - cbn. lia.
  - intros i url. discriminate.
  - exists e, before, url, probes.
    repeat (split; [assumption|]). apply H7. reflexivity.
Defined.

(** With three Registry entries and two retries, a call that fails
    everywhere makes four attempts, not six. *)
Lemma three_endpoints_four_attempts :
  List.length (Object_values (endpoints three_endpoints)) = 3%nat /\
  retryCount (settings three_endpoints) = 2%nat /\
  (forall i url body, attempt_error (all_down i url body) <> None) /\
  attempts_made
    (snd (callOllamaApi three_endpoints all_down "phi:latest" "hi" no_options
            remote_session)) = 4%nat /\
  (4 <> 2 * 3)%nat.
Proof.
  split; [reflexivity|]. split; [reflexivity|]. split; [discriminate|].
  split; [reflexivity|]. discriminate.
Qed.

(** Without retries the loop is not entered: nothing is sent, nothing is
    thrown and the status stays as it was. *)
Example no_retries_no_attempt :
  callOllamaApi no_retries all_down "phi:latest" "hi" no_options remote_session =
    (Ok ReturnedUndefined,
     set_apiEndpoint (Some "https://ollama.mhrpci.site/api/generate")
       remote_session).
Proof. reflexivity. Qed.

(** C9.  The request body takes each option from the caller only when it
    is truthy, and the default otherwise: a temperature of 0 is replaced by
    0.7 like a missing one.  Every generation request the call sends carries
    that body, and with at least one retry configured the first fetch of the
    call is such a request. *)
Theorem falsy_options_get_defaults
    (cfg : api_config) (net : network) (model prompt : string)
    (options : call_options) (b : browser) :
  let requestBody := build_request model prompt options in
  let after := snd (callOllamaApi cfg net model prompt options b) in
  Client.options requestBody =
    Some {| temperature :=
              if truthy (opt_temperature options) then opt_temperature options
              else JsNum (7 # 10)%Q;
            top_p :=
              if truthy (opt_top_p options) then opt_top_p options
              else JsNum (9 # 10)%Q;
            max_tokens :=
              if truthy (opt_max_tokens options) then opt_max_tokens options
              else JsNum (5000 # 1)%Q |} /\
  stream requestBody =
    (if truthy (opt_stream options) then opt_stream options else JsBool false) /\
  match Client.options
          (build_request model prompt
             {| opt_stream := opt_stream options;
                opt_temperature := JsNum (0 # 1)%Q;
                opt_top_p := opt_top_p options;
                opt_max_tokens := opt_max_tokens options |}) with
  | Some sent => temperature sent = JsNum (7 # 10)%Q
  | None => False
  end /\
  fst (callOllamaApi cfg net model prompt options b) <> Ok Unfinished /\
  exists calls,
    fetched after = fetched b ++ calls /\
    Forall (fun c => is_attempt c = true -> snd c = requestBody) calls /\
    calls !! 0%nat =
      if (retryCount (settings cfg) =? 0)%nat then None
      else Some (resolve cfg (hostname b) (apiEndpoint b), requestBody).
Proof.
  intros requestBody after.
  split; [reflexivity|]. split; [reflexivity|]. split; [reflexivity|].
  subst after. unfold callOllamaApi, bind. rewrite getApiEndpoint_run. cbn zeta.
  destruct (getApiEndpoint_fields cfg b) as (_ & _ & _ & _ & Hf1).
  rewrite getApiEndpoint_run in Hf1. cbn [snd] in Hf1. cbn zeta in Hf1.
  set (b1 := if item_missing (apiEndpoint b) then _ else b) in *.
  destruct (attempts_loop_calls cfg net (retryCount (settings cfg) * 2) requestBody
              (retryCount (settings cfg) * 2)%nat
              (resolve cfg (hostname b) (apiEndpoint b)) 0%nat b1)
    as (o & b' & calls & Hrun & Ho & Hf & Hall & Hfirst); [lia|].
  fold requestBody. rewrite Hrun. cbn [fst snd]. split; [done|].
  exists calls. rewrite Hf, Hf1. split; [done|]. split; [done|].
  destruct (Nat.eqb_spec (retryCount (settings cfg)) 0) as [Hz|Hnz].
  - rewrite Hz in Hrun. cbn [Nat.mul] in Hrun.
    rewrite attempts_loop_exit in Hrun by lia.
    injection Hrun as _ <-. rewrite Hf1 in Hf.
    destruct calls; [done|].
    apply (f_equal (@List.length _)) in Hf. rewrite length_app in Hf. cbn in Hf. lia.
  - apply Hfirst. lia.
Qed.

(** C3.  With two retries configured: when the first two attempts, on the
    session's endpoint, fail, the probe of the first fallback is answered
    with an OK status and the next attempt, on that fallback, is answered
    with data free of an error, the call returns that data after exactly
    three attempts (two on the first endpoint, one on the fallback), the
    fallback is the session's endpoint from then on, and the status reads
    online, "AI Online". *)
Theorem failover_then_success
    (cfg : api_config) (net : network) (model prompt : string)
    (options : call_options) (b : browser)
    (f : string) (rest : list string) (r : http_response) (d : data) :
  let requestBody := build_request model prompt options in
  let primary := resolve cfg (hostname b) (apiEndpoint b) in
  let start := List.length (fetched b) in
  let after := snd (callOllamaApi cfg net model prompt options b) in
  retryCount (settings cfg) = 2%nat ->
  fallbacks_of cfg primary = f :: rest ->
  attempt_error (net start primary requestBody) <> None ->
  attempt_error (net (start + 1)%nat primary requestBody) <> None ->
  probe_succeeds (net (start + 2)%nat f probe_body) = true ->
  net (start + 3)%nat f requestBody = Resolves r ->
  ok r = true -> body r = Json d -> truthy (error d) = false ->
  fst (callOllamaApi cfg net model prompt options b) = Ok (Returned d) /\
  apiEndpoint after = Some f /\
  attempts_made after = (attempts_made b + 3)%nat /\
  fetched after =
    fetched b ++
    [(primary, requestBody); (primary, requestBody); (f, probe_body);
     (f, requestBody)] /\
  status_view after = status_view (display "online" "AI Online" b) /\
  (status_elements b = true -> shows "online" "AI Online" after).
Proof.
  intros requestBody primary start after Hr Hfbs H1 H2 Hprobe Hnet Hok Hbody Herr.
  subst after. unfold callOllamaApi, bind. rewrite getApiEndpoint_run. cbn zeta.
  destruct (getApiEndpoint_fields cfg b) as (Ha1 & Hp1 & Hs1 & _ & Hf1).
  rewrite getApiEndpoint_run in Ha1, Hp1, Hs1, Hf1.
  cbn [snd] in Ha1, Hp1, Hs1, Hf1. cbn zeta in Ha1, Hp1, Hs1, Hf1.
  set (b1 := if item_missing (apiEndpoint b) then _ else b) in *.
  fold primary in Ha1 |- *. fold requestBody. rewrite Hr.
  change (2 * 2)%nat with 4%nat.
  (* first attempt *)
  rewrite attempts_loop_step by lia.
  destruct (attempt_error (net (List.length (fetched b1)) primary requestBody))
    as [e1|] eqn:He1; [|by rewrite Hf1 in He1].
  rewrite (attempt_fails _ _ _ _ _ He1).
  rewrite (recover_retry cfg net) by (rewrite ?Hr; first [reflexivity | lia]).
  set (b2 := display "warning" "Retrying connection..."
               (add_fetch (primary, requestBody) b1)).
  assert (fetched b2 = fetched b ++ [(primary, requestBody)]) as Hf2.
  { subst b2. rewrite fetched_display. cbn. by rewrite Hf1. }
  (* second attempt *)
  rewrite attempts_loop_step by lia.
  destruct (attempt_error (net (List.length (fetched b2)) primary requestBody))
    as [e2|] eqn:He2.
  2:{ rewrite Hf2, length_app in He2. by cbn in He2. }
  rewrite (attempt_fails _ _ _ _ _ He2).
  set (b3 := add_fetch (primary, requestBody) b2).
  assert (fetched b3 = fetched b ++ [(primary, requestBody); (primary, requestBody)])
    as Hf3.
  { subst b3. cbn. by rewrite Hf2, <- app_assoc. }
  assert (resolve cfg (hostname b3) (apiEndpoint b3) = primary) as Hres.
  { subst b3 b2. cbn [hostname apiEndpoint add_fetch].
    rewrite hostname_display, apiEndpoint_display. cbn [hostname apiEndpoint add_fetch].
    rewrite (page_hostname _ _ Hp1), Ha1. apply resolve_idem. }
  destruct (tryNextEndpoint_found cfg net b3 [] f rest)
    as (b4 & Hnext & Ha4 & Hf4 & Hp4 & Hs4).
  { by rewrite Hres. }
  { reflexivity. }
  { rewrite Hf3, length_app. cbn [List.length].
    by replace (List.length (fetched b) + 2 + 0)%nat with (start + 2)%nat by (subst start; lia). }
  rewrite (recover_switch cfg net 4 primary 1 e2 b3 f b4);
    [|rewrite Hr; reflexivity|lia|exact Hnext].
  set (b5 := display "warning" "Switching endpoints..." b4).
  assert (fetched b5 =
          fetched b ++ [(primary, requestBody); (primary, requestBody); (f, probe_body)])
    as Hf5.
  { subst b5. rewrite fetched_display, Hf4, Hf3, <- app_assoc. done. }
  (* third attempt, on the fallback *)
  rewrite attempts_loop_step by lia.
  rewrite (attempt_succeeds net f requestBody b5 r d); try done.
  2:{ rewrite Hf5, length_app. cbn [List.length]. exact Hnet. }
  cbn [fst snd].
  assert (same_display b (add_fetch (f, requestBody) b5)) as Hd.
  { apply same_display_add_fetch. subst b5.
    eapply same_display_trans; [|apply same_display_display].
    eapply same_display_trans; [|apply same_display_view, Hs4].
    subst b3. apply same_display_add_fetch. subst b2.
    eapply same_display_trans; [|apply same_display_display].
    apply same_display_add_fetch. by apply same_display_view. }
  assert (status_view (display "online" "AI Online" (add_fetch (f, requestBody) b5)) =
          status_view (display "online" "AI Online" b)) as Hview
    by (by apply display_same).
  split; [done|]. split.
  { rewrite apiEndpoint_display. cbn. subst b5. by rewrite apiEndpoint_display. }
  assert (fetched (display "online" "AI Online" (add_fetch (f, requestBody) b5)) =
          fetched b ++
          [(primary, requestBody); (primary, requestBody); (f, probe_body);
           (f, requestBody)]) as Hfinal.
  { rewrite fetched_display. cbn [fetched add_fetch]. by rewrite Hf5, <- app_assoc. }
  split.
  { unfold attempts_made. rewrite Hfinal, List.filter_app, length_app. cbn. lia. }
  split; [done|]. split; [done|]. by apply shows_of_view.
Qed.

Lemma failover_then_success_witness :
  fst (callOllamaApi ApiConfig only_local "phi:latest" "hi" no_options
         remote_session) =
    Ok (Returned {| error := JsUndefined; response := "hello" |}) /\
  apiEndpoint
    (snd (callOllamaApi ApiConfig only_local "phi:latest" "hi" no_options
            remote_session)) =
    Some "http://192.168.1.50:11434/api/generate" /\
  attempts_made
    (snd (callOllamaApi ApiConfig only_local "phi:latest" "hi" no_options
            remote_session)) = 3%nat /\
  shows "online" "AI Online"
    (snd (callOllamaApi ApiConfig only_local "phi:latest" "hi" no_options
            remote_session)).
Proof.
  destruct (failover_then_success ApiConfig only_local "phi:latest" "hi"
              no_options remote_session
              "http://192.168.1.50:11434/api/generate" []
              {| status := 200;
                 body := Json {| error := JsUndefined; response := "hello" |} |}
              {| error := JsUndefined; response := "hello" |})
    as (H1 & H2 & H3 & _ & _ & H6);
    [reflexivity | reflexivity | discriminate | discriminate
    | reflexivity | reflexivity | reflexivity | reflexivity | reflexivity |].
  split; [exact H1|]. split; [exact H2|]. split; [exact H3|].
  apply H6. reflexivity.
Defined.

End ClientTheory.

(** ** Further properties of the gateway *)

Module ProxyExtras.

Import Proxy Samples ProxyTheory.

Lemma app_tracking env net (t : tracking) (now : Z) (req : request) :
  snd (app env net t now req) =
    if preflight req then t else snd (rateLimiter RATE_LIMIT t (ip req) now).
Proof.
  unfold app. destruct (preflight req); [done|].
  destruct (rateLimiter RATE_LIMIT t (ip req) now) as [[r|[]] t']; [done|].
  by destruct (route env net req).
Qed.

(** X1.  Requests of other clients never change what is on record for a
    client, nor the verdict that client gets next. *)
Theorem other_clients_unaffected env net (arrivals : list (Z * request))
    (t : tracking) (clientIp : string) :
  Forall (fun a => ip (snd a) <> clientIp) arrivals ->
  stored (snd (serve env net t arrivals)) clientIp = stored t clientIp /\
  forall now,
    admitted (rateLimiter RATE_LIMIT (snd (serve env net t arrivals)) clientIp now) =
    admitted (rateLimiter RATE_LIMIT t clientIp now).
Proof.
  intros Hall.
  assert (stored (snd (serve env net t arrivals)) clientIp = stored t clientIp) as Hs.
  { revert t. induction arrivals as [|[now req] rest IH]; intros t; [done|].
    inversion Hall as [|? ? Hne Hrest]; subst. cbn [snd] in Hne.
    cbn [serve].
    pose proof (app_tracking env net t now req) as Ht.
    destruct (app env net t now req) as [[r calls] t1]. cbn [snd] in Ht.
    specialize (IH Hrest t1).
    destruct (serve env net t1 rest) as [rs t2]. cbn [snd] in *.
    rewrite IH, Ht. destruct (preflight req); [done|].
    by apply stored_after_other. }
  split; [done|]. intros now. by rewrite !admitted_unfold, Hs.
Qed.

Lemma other_clients_unaffected_witness :
  stored
    (snd (serve development upstream_down ∅
            [(0%Z, post_generate "198.51.100.9" None (JsStr "phi:latest") (JsStr "hi"))]))
    "203.0.113.7" = stored ∅ "203.0.113.7".
Proof.
  apply (other_clients_unaffected development upstream_down
           [(0%Z, post_generate "198.51.100.9" None (JsStr "phi:latest") (JsStr "hi"))]
           ∅ "203.0.113.7").
  repeat constructor. discriminate.
Defined.

(** X2.  The map only grows: an address that is a key stays one, the
    address of the request is a key afterwards even when the request is
    rejected, and in every state the gateway can be in no address has more
    than [maxRequests] timestamps on record. *)
Theorem tracking_grows_but_windows_stay_bounded
    (rl : rate_limit) (t : tracking) (clientIp : string) (now : Z) :
  reachable rl t ->
  let after := snd (rateLimiter rl t clientIp now) in
  dom t ⊆ dom after /\
  clientIp ∈ dom after /\
  forall other, (List.length (stored after other) <= maxRequests rl)%nat.
Proof.
  intros Hreach after. subst after.
  split; [|split].
  - rewrite rateLimiter_unfold. cbn zeta.
    destruct (_ <? _)%nat; cbn [snd]; rewrite dom_insert_L; set_solver.
  - rewrite rateLimiter_unfold. cbn zeta.
    destruct (_ <? _)%nat; cbn [snd]; rewrite dom_insert_L; set_solver.
  - apply reachable_bounded. by constructor.
Qed.

Lemma tracking_grows_but_windows_stay_bounded_witness :
  dom (∅ : tracking) ⊆ dom (snd (rateLimiter RATE_LIMIT ∅ "203.0.113.7" 0)) /\
  "203.0.113.7" ∈ dom (snd (rateLimiter RATE_LIMIT ∅ "203.0.113.7" 0)) /\
  forall other,
    (List.length (stored (snd (rateLimiter RATE_LIMIT ∅ "203.0.113.7" 0)) other)
     <= maxRequests RATE_LIMIT)%nat.
Proof.
  apply (tracking_grows_but_windows_stay_bounded RATE_LIMIT ∅ "203.0.113.7" 0).
  apply reachable_start.
Defined.

Lemma window_verdicts_burst (rl : rate_limit) (instants : list Z) :
  forall timestamps : list Z,
    (forall x y, In x (timestamps ++ instants) -> In y instants ->
       (y - windowMs rl < x)%Z) ->
    window_verdicts rl timestamps instants =
      replicate (min (List.length instants)
                   (maxRequests rl - List.length timestamps)) true ++
      replicate (List.length instants -
                   (maxRequests rl - List.length timestamps)) false.
Proof.
  induction instants as [|now rest IH]; intros timestamps Hclose; [done|].
  cbn [window_verdicts].
  assert (in_window rl now timestamps = timestamps) as ->.
  { unfold in_window. apply List.forallb_filter_id, List.forallb_forall.
    intros x Hx. apply Z.ltb_lt, Hclose; [|by left].
    apply List.in_or_app. by left. }
  destruct (Nat.ltb_spec (List.length timestamps) (maxRequests rl)) as [Hlt|Hge].
  - rewrite IH.
    + rewrite length_app. cbn [List.length].
      replace (min (S (List.length rest)) (maxRequests rl - List.length timestamps))
        with (S (min (List.length rest)
                   (maxRequests rl - (List.length timestamps + 1)))) by lia.
      replace (S (List.length rest) - (maxRequests rl - List.length timestamps))%nat
        with (List.length rest - (maxRequests rl - (List.length timestamps + 1)))%nat
        by lia.
      done.
    + intros x y Hx Hy. apply Hclose; [|by right].
      rewrite <- app_assoc in Hx. exact Hx.
  - rewrite IH.
    + replace (maxRequests rl - List.length timestamps)%nat with 0%nat by lia.
      rewrite !Nat.min_0_r, !Nat.sub_0_r. done.
    + intros x y Hx Hy. apply Hclose; [|by right].
      apply List.in_app_or in Hx as [Hx|Hx]; apply List.in_or_app; [by left|].
      right. by right.
Qed.

(** X3.  Of the requests a client without history sends within less than
    one window of each other, exactly the first [maxRequests] are admitted
    and all later ones rejected. *)
Theorem burst_is_cut_at_quota
    (rl : rate_limit) (t : tracking) (clientIp : string) (instants : list Z) :
  stored t clientIp = [] ->
  (forall x y, In x instants -> In y instants -> (y - windowMs rl < x)%Z) ->
  fst (requests_at rl t clientIp instants) =
    replicate (min (List.length instants) (maxRequests rl)) true ++
    replicate (List.length instants - maxRequests rl) false.
Proof.
  intros Hfresh Hclose.
  rewrite requests_at_verdicts, Hfresh, window_verdicts_burst.
  - cbn [List.length]. by rewrite Nat.sub_0_r.
  - exact Hclose.
Qed.

Lemma burst_is_cut_at_quota_witness :
  fst (requests_at RATE_LIMIT ∅ "203.0.113.7" (replicate 21 0%Z ++ [59999%Z])) =
    replicate 20 true ++ replicate 2 false.
Proof.
  apply (burst_is_cut_at_quota RATE_LIMIT ∅ "203.0.113.7"
           (replicate 21 0%Z ++ [59999%Z])).
  - reflexivity.
  - assert (Forall (fun z => (0 <= z <= 59999)%Z) (replicate 21 0%Z ++ [59999%Z]))
      as Hall by (apply Forall_app; split;
                  [apply Forall_replicate; cbn beta; lia
                  | repeat constructor; cbn beta; lia]).
    intros x y Hx Hy.
    apply list_elem_of_In in Hx, Hy.
    pose proof (proj1 (Forall_forall _ _) Hall x Hx) as Hbx.
    pose proof (proj1 (Forall_forall _ _) Hall y Hy) as Hby.
    cbn beta in Hbx, Hby. unfold RATE_LIMIT. cbn [windowMs]. lia.
Defined.

(** X4.  Every request that is not a preflight counts against its
    client's quota, whatever it asks for: twenty requests of any kind (health
    checks, info requests, unknown paths) at one instant make the client's
    next request at that instant a 429, also a well-formed generation
    request; and a health check itself is answered 429 once the client is
    over quota. *)
Theorem every_route_counts env net (req next : request) :
  preflight req = false ->
  preflight next = false ->
  ip next = ip req ->
  last (fst (serve env net ∅ (replicate 20 (0%Z, req) ++ [(0%Z, next)]))) =
    Some too_many_requests /\
  fst (serve env net ∅ (replicate 20 (0%Z, req))) =
    replicate 20 (fst (route env net req)).
Proof.
  intros Hreq Hnext Hip.
  split.
  - rewrite (serve_responses env net (ip req)).
    + unfold stored. rewrite lookup_empty. cbn [default from_option].
      replace (List.map fst (replicate 20 (0%Z, req) ++ [(0%Z, next)]))
        with (replicate 20 0%Z ++ [0%Z]) by reflexivity.
      replace (window_verdicts RATE_LIMIT [] (replicate 20 0%Z ++ [0%Z]))
        with (replicate 20 true ++ [false]) by (by vm_compute).
      cbn -[route too_many_requests]. done.
    + apply Forall_app. split; [by apply Forall_replicate|by repeat constructor].
  - rewrite (serve_responses env net (ip req)).
    + unfold stored. rewrite lookup_empty. cbn [default from_option].
      replace (List.map fst (replicate 20 (0%Z, req)))
        with (replicate 20 0%Z) by reflexivity.
      replace (window_verdicts RATE_LIMIT [] (replicate 20 0%Z))
        with (replicate 20 true) by (by vm_compute).
      cbn -[route too_many_requests]. done.
    + by apply Forall_replicate.
Qed.

Lemma every_route_counts_witness :
  last (fst (serve development upstream_down ∅
               (replicate 20 (0%Z, get_health "203.0.113.7") ++
                [(0%Z, post_generate "203.0.113.7" None
                         (JsStr "phi:latest") (JsStr "hi"))]))) =
    Some too_many_requests.
Proof.
  apply (every_route_counts development upstream_down
           (get_health "203.0.113.7")
           (post_generate "203.0.113.7" None (JsStr "phi:latest") (JsStr "hi")));
    reflexivity.
Defined.

Lemma API_ENDPOINTS_local env :
  exists url,
    get_property (API_ENDPOINTS env) "local" = OwnValue url /\
    string_nonempty url = true /\
    url = str_or (OLLAMA_API_LOCAL env) "http://192.168.1.50:11434/api/generate".
Proof.
  eexists. split; [reflexivity|]. split; [|reflexivity].
  unfold str_or. destruct (OLLAMA_API_LOCAL env) as [v|]; [|done].
  by destruct (string_nonempty v) eqn:E.
Qed.

Lemma API_ENDPOINTS_production env :
  exists url,
    get_property (API_ENDPOINTS env) "production" = OwnValue url /\
    string_nonempty url = true /\
    url = str_or (OLLAMA_API_PRODUCTION env)
            "https://ollama.mhrpci.site/api/generate".
Proof.
  eexists. split; [reflexivity|]. split; [|reflexivity].
  unfold str_or. destruct (OLLAMA_API_PRODUCTION env) as [v|]; [|done].
  by destruct (string_nonempty v) eqn:E.
Qed.

(** X5.  A request with model and prompt that names no endpoint, or names
    [local] or [production], is always forwarded, never answered "Invalid
    endpoint": the Registry entry is the environment's URL, or the built-in
    one when the variable is unset or empty, and without a key the entry is
    [production] exactly when [NODE_ENV] is [production]. *)
Theorem registered_keys_are_forwarded env net (req : request) :
  truthy (model (body req)) && truthy (prompt (body req)) = true ->
  (query_endpoint req = None \/ query_endpoint req = Some "" \/
   query_endpoint req = Some "local" \/ query_endpoint req = Some "production") ->
  let to_production :=
    match query_endpoint req with
    | Some "production" => true
    | Some "local" => false
    | _ => match NODE_ENV env with
           | Some mode => String.eqb mode "production"
           | None => false
           end
    end in
  let url :=
    if to_production
    then str_or (OLLAMA_API_PRODUCTION env) "https://ollama.mhrpci.site/api/generate"
    else str_or (OLLAMA_API_LOCAL env) "http://192.168.1.50:11434/api/generate" in
  string_nonempty url = true /\
  snd (generate env net req) =
    [ {| target := OwnValue url; sent := body req;
         authorization := bearer env; call_timeout := 30000 |} ].
Proof.
  intros Hvalid Hkey to_production url.
  destruct (API_ENDPOINTS_local env) as (ul & Hl & Hnl & Hul).
  destruct (API_ENDPOINTS_production env) as (up & Hp & Hnp & Hup).
  assert (let key := str_or (query_endpoint req) (DEFAULT_ENDPOINT env) in
          get_property (API_ENDPOINTS env) key = OwnValue url /\
          string_nonempty url = true) as [Hget Hne].
  { subst url to_production. unfold DEFAULT_ENDPOINT.
    destruct Hkey as [-> | [-> | [-> | ->]]]; cbn [str_or string_nonempty];
      try (split; [reflexivity|congruence]);
      (destruct (NODE_ENV env) as [mode|];
       [destruct (String.eqb mode "production")|]);
      split; first [reflexivity | congruence]. }
  split; [done|].
  unfold generate. cbn zeta. rewrite <- negb_andb, Hvalid. cbn [negb].
  cbn zeta in Hget. rewrite Hget. cbn [property_truthy]. rewrite Hne. cbn [negb].
  unfold axios_post. destruct (net _) as [r| |]; [|done..].
  by destruct (validateStatus (up_status r)).
Qed.

Lemma registered_keys_are_forwarded_witness :
  snd (generate production upstream_down
         (post_generate "203.0.113.7" (Some "local")
            (JsStr "phi:latest") (JsStr "hi"))) =
    [ {| target := OwnValue "http://192.168.1.50:11434/api/generate";
         sent := body (post_generate "203.0.113.7" (Some "local")
                         (JsStr "phi:latest") (JsStr "hi"));
         authorization := Some "Bearer s3cret"; call_timeout := 30000 |} ].
Proof.
  destruct (registered_keys_are_forwarded production upstream_down
              (post_generate "203.0.113.7" (Some "local")
                 (JsStr "phi:latest") (JsStr "hi")))
    as [_ H]; [reflexivity | right; right; left; reflexivity |].
  exact H.
Defined.

(** X6.  The handler makes at most one upstream call for a request, and
    makes none exactly when it answers with one of its two validation
    errors; the call carries the inbound body as it came, the 30 second
    timeout and, when a non-empty key is configured, the bearer header. *)
Theorem one_call_with_the_inbound_body env net (req : request) :
  let calls := snd (generate env net req) in
  (List.length calls <= 1)%nat /\
  Forall (fun c => sent c = body req /\ call_timeout c = 30000%Z /\
                   authorization c =
                     match OLLAMA_API_KEY env with
                     | Some k => if string_nonempty k
                                 then Some (String.append "Bearer " k) else None
                     | None => None
                     end) calls /\
  (calls = [] <->
   fst (generate env net req) = missing_parameters \/
   fst (generate env net req) =
     invalid_endpoint (str_or (query_endpoint req) (DEFAULT_ENDPOINT env))).
Proof.
  cbn zeta. unfold generate. cbn zeta.
  destruct (negb (truthy (model (body req))) || negb (truthy (prompt (body req)))).
  { cbn. split; [lia|]. split; [constructor|]. split; [by left|done]. }
  destruct (negb (property_truthy _)).
  { cbn. split; [lia|]. split; [constructor|]. split; [by right|done]. }
  unfold axios_post, on_error.
  destruct (net _) as [r| |]; [destruct (validateStatus (up_status r))|..];
    cbn; (split; [lia|]); (split; [by repeat constructor|]);
    (split; [done|]); intros [H|H]; discriminate.
Qed.

End ProxyExtras.

(** ** Further properties of the failover client *)

Module ClientExtras.

Import Client ClientSamples ClientTheory.

(** *** Strings *)

Lemma append_cons a s t :
  String.append (String a s) t = String a (String.append s t).
Proof. reflexivity. Qed.

Lemma append_assoc s t u :
  String.append (String.append s t) u = String.append s (String.append t u).
Proof.
  induction s as [|a s IH]; [reflexivity|].
  rewrite !append_cons. by rewrite IH.
Qed.

Lemma prefix_append m post : String.prefix m (String.append m post) = true.
Proof.
  induction m as [|a m IH]; [by destruct post|].
  rewrite append_cons. cbn [String.prefix].
  by destruct (Ascii.ascii_dec a a).
Qed.

Lemma prefix_inv m : forall s,
  String.prefix m s = true -> exists post, s = String.append m post.
Proof.
  induction m as [|a m IH]; intros s H.
  - by exists s.
  - destruct s as [|b s]; [discriminate|]. cbn [String.prefix] in H.
    destruct (Ascii.ascii_dec a b) as [->|]; [|discriminate].
    destruct (IH s H) as [post ->]. by exists post.
Qed.

Lemma includes_unfold s sub :
  includes s sub =
    if String.prefix sub s then true
    else match s with
         | EmptyString => false
         | String _ s' => includes s' sub
         end.
Proof. by destruct s. Qed.

(** [includes] is the substring test. *)
Lemma includes_iff s sub :
  includes s sub = true <->
  exists pre post, s = String.append pre (String.append sub post).
Proof.
  split.
  - induction s as [|c s IH]; rewrite includes_unfold;
      destruct (String.prefix sub _) eqn:Hp; intros H; try discriminate.
    + apply prefix_inv in Hp as [post ->]. by exists EmptyString, post.
    + apply prefix_inv in Hp as [post ->]. by exists EmptyString, post.
    + destruct (IH H) as (pre & post & ->). by exists (String c pre), post.
  - intros (pre & post & ->). induction pre as [|c pre IH].
    + rewrite includes_unfold. change (String.append "" ?x) with x.
      by rewrite prefix_append.
    + rewrite includes_unfold, append_cons. by destruct (String.prefix sub _).
Qed.

(** *** Endpoint selection *)

(** X7.  Once [getApiEndpoint] has answered, asking again gives the same
    endpoint and changes nothing; the endpoint is the session's stored item,
    and any state holding that (non-empty) item answers with it whatever its
    host name is. *)
Theorem endpoint_is_memoized (cfg : api_config) (b : browser) :
  let first := getApiEndpoint cfg b in
  getApiEndpoint cfg (snd first) = first /\
  exists endpoint,
    fst first = Ok endpoint /\
    apiEndpoint (snd first) = Some endpoint /\
    forall b', apiEndpoint b' = Some endpoint ->
               string_nonempty endpoint = true ->
               getApiEndpoint cfg b' = (Ok endpoint, b').
Proof.
  cbn zeta. split.
  - rewrite (getApiEndpoint_run cfg b). cbn [snd].
    destruct (item_missing (apiEndpoint b)) eqn:Hm.
    + rewrite getApiEndpoint_run. cbn [hostname apiEndpoint set_apiEndpoint].
      rewrite resolve_idem.
      destruct (item_missing (Some _)); reflexivity.
    + rewrite getApiEndpoint_run, Hm. reflexivity.
  - exists (resolve cfg (hostname b) (apiEndpoint b)).
    split; [by rewrite getApiEndpoint_run|].
    split; [apply getApiEndpoint_fields|].
    intros b' Hb' Hne. by apply getApiEndpoint_cached.
Qed.

(** X8.  With nothing stored, the local endpoint is chosen exactly when
    the host name contains [localhost], [127.0.0.1] or [192.168.] somewhere,
    and the production endpoint otherwise; the choice is stored. *)
Theorem host_is_local_by_substring (cfg : api_config) (b : browser) :
  item_missing (apiEndpoint b) = true ->
  let contains marker :=
    exists pre post,
      hostname b = String.append pre (String.append marker post) in
  let chosen :=
    fst (getApiEndpoint cfg b) in
  (contains "localhost" \/ contains "127.0.0.1" \/ contains "192.168." ->
   chosen = Ok (endpoint_of cfg "local") /\
   apiEndpoint (snd (getApiEndpoint cfg b)) = Some (endpoint_of cfg "local")) /\
  (~ (contains "localhost" \/ contains "127.0.0.1" \/ contains "192.168.") ->
   chosen = Ok (endpoint_of cfg "production") /\
   apiEndpoint (snd (getApiEndpoint cfg b)) = Some (endpoint_of cfg "production")).
Proof.
  intros Hm contains chosen. subst chosen.
  rewrite getApiEndpoint_run, Hm. cbn [fst snd apiEndpoint set_apiEndpoint].
  unfold resolve. rewrite Hm.
  split.
  - intros H.
    assert (includes (hostname b) "localhost" || includes (hostname b) "127.0.0.1" ||
            includes (hostname b) "192.168." = true) as ->; [|done].
    destruct H as [H|[H|H]]; apply includes_iff in H; rewrite H;
      by rewrite ?orb_true_r.
  - intros H.
    assert (includes (hostname b) "localhost" || includes (hostname b) "127.0.0.1" ||
            includes (hostname b) "192.168." = false) as ->; [|done].
    apply not_true_is_false. intros Hc. apply H.
    apply orb_prop in Hc as [Hc|Hc]; [apply orb_prop in Hc as [Hc|Hc]|];
      apply includes_iff in Hc; auto.
Qed.

Lemma host_is_local_by_substring_witness :
  fst (getApiEndpoint ApiConfig lookalike_session) =
    Ok "http://192.168.1.50:11434/api/generate" /\
  apiEndpoint (snd (getApiEndpoint ApiConfig lookalike_session)) =
    Some "http://192.168.1.50:11434/api/generate".
Proof.
  destruct (host_is_local_by_substring ApiConfig lookalike_session)
    as [Hlocal _]; [reflexivity|].
  apply Hlocal. left. by exists "", ".example.org".
Defined.

(** *** Failover, for any network *)

Section Failover.

Variable cfg : api_config.
Variable net : network.

Lemma try_fallbacks_result fbs : forall b,
  exists found b' k,
    try_fallbacks net fbs b = (Ok found, b') /\
    fetched b' = fetched b ++ probe_calls (take k fbs) /\
    page b' = page b /\ status_view b' = status_view b /\
    match found with
    | Some f =>
        apiEndpoint b' = Some f /\ In f fbs /\
        toasts b' = toasts b ++ (if showToast b then [switched_toast] else [])
    | None =>
        apiEndpoint b' = apiEndpoint b /\ toasts b' = toasts b
    end.
Proof.
  induction fbs as [|e rest IH]; intros b.
  - exists None, b, 0%nat. cbn. by rewrite app_nil_r.
  - rewrite try_fallbacks_cons. destruct (probe_succeeds _).
    + eexists (Some e), _, 1%nat. split; [reflexivity|].
      unfold toast. cbn [snd take probe_calls List.map].
      destruct (showToast b) eqn:Ht; cbn; rewrite ?Ht, ?app_nil_r; auto 10.
    + destruct (IH (add_fetch (e, probe_body) b))
        as (found & b' & k & Hrun & Hf & Hp & Hs & Hfound).
      exists found, b', (S k). split; [done|].
      cbn [fetched add_fetch] in Hf. rewrite Hf, <- app_assoc.
      split; [done|]. split; [done|]. split; [done|].
      destruct found as [f|]; [|done].
      destruct Hfound as (Ha & Hin & Ht). split; [done|]. split; [by right|done].
Qed.

Lemma tryNextEndpoint_result (b : browser) :
  let primary := resolve cfg (hostname b) (apiEndpoint b) in
  exists endpoint b' k,
    tryNextEndpoint cfg net b = (Ok endpoint, b') /\
    apiEndpoint b' = Some endpoint /\
    (endpoint = primary \/ In endpoint (fallbacks_of cfg primary)) /\
    fetched b' = fetched b ++ probe_calls (take k (fallbacks_of cfg primary)) /\
    status_view b' = status_view b /\
    page b' = page b.
Proof.
  cbn zeta. unfold tryNextEndpoint. unfold bind at 1.
  rewrite getFallbackEndpoints_run.
  destruct (getApiEndpoint_fields cfg b) as (Ha1 & Hp1 & Hs1 & _ & Hf1).
  cbn zeta in *. set (b1 := snd (getApiEndpoint cfg b)) in *.
  set (primary := resolve cfg (hostname b) (apiEndpoint b)) in *.
  unfold bind at 1.
  destruct (try_fallbacks_result (fallbacks_of cfg primary) b1)
    as (found & b2 & k & Hrun & Hf2 & Hp2 & Hs2 & Hfound).
  rewrite Hrun. destruct found as [f|].
  - destruct Hfound as (Ha2 & Hin & _). exists f, b2, k. unfold ret.
    split; [done|]. split; [done|]. split; [by right|].
    split; [congruence|]. split; congruence.
  - destruct Hfound as (Ha2 & _). unfold bind, ret.
    destruct (getApiEndpoint_fields cfg b2) as (Ha3 & Hp3 & Hs3 & _ & Hf3).
    cbn zeta in *. rewrite (getApiEndpoint_run cfg b2) in *. cbn [fst snd] in *.
    assert (resolve cfg (hostname b2) (apiEndpoint b2) = primary) as Hsame.
    { rewrite (page_hostname b b2) by congruence.
      rewrite Ha2, Ha1. apply resolve_idem. }
    rewrite Hsame in *. eexists primary, _, k.
    split; [reflexivity|]. split; [done|]. split; [by left|].
    split; [congruence|]. split; congruence.
Qed.

(** X9.  Whatever the network does, [tryNextEndpoint] returns an endpoint
    and does not throw; the endpoint it returns is the session's stored
    endpoint afterwards, and it is the endpoint the session resolved to
    before or one of its fallbacks.  All it sends are probes, to an initial
    stretch of the fallbacks in their order; it never changes the status
    display. *)
Theorem failover_keeps_the_session_consistent (b : browser) :
  let primary := resolve cfg (hostname b) (apiEndpoint b) in
  let after := snd (tryNextEndpoint cfg net b) in
  exists endpoint k,
    fst (tryNextEndpoint cfg net b) = Ok endpoint /\
    apiEndpoint after = Some endpoint /\
    (endpoint = primary \/ In endpoint (fallbacks_of cfg primary)) /\
    fetched after = fetched b ++ probe_calls (take k (fallbacks_of cfg primary)) /\
    status_view after = status_view b /\
    page after = page b.
Proof.
  cbn zeta.
  destruct (tryNextEndpoint_result b) as (endpoint & b' & k & -> & H).
  by exists endpoint, k.
Qed.

(** *** The liveness probe *)

Lemma toast_if_authenticated_run type title text b :
  toast_if_authenticated type title text b =
    (Ok tt,
     if showToast b && authenticated b then add_toast (type, title, text) b
     else b).
Proof.
  unfold toast_if_authenticated, isAuthenticationComplete, bind, when, toast, ret,
    authenticated.
  destruct (showToast b) eqn:Ht; [|reflexivity].
  destruct (authOverlay b) as [d|]; [destruct (String.eqb d "none")|];
    cbn; by rewrite ?Ht.
Qed.

(** The probe up to its fetch. *)
Lemma checkApiStatus_start (b : browser) :
  exists b2,
    fetched b2 =
      fetched b ++ [(resolve cfg (hostname b) (apiEndpoint b), probe_body)] /\
    apiEndpoint b2 = Some (resolve cfg (hostname b) (apiEndpoint b)) /\
    page b2 = page b /\ toasts b2 = toasts b /\ same_display b b2 /\
    checkApiStatus cfg net b =
      match net (List.length (fetched b))
              (resolve cfg (hostname b) (apiEndpoint b)) probe_body with
      | Resolves r =>
          if ok r then (Ok true, display "online" "AI Online" b2)
          else
            (Ok false,
             snd (toast_if_authenticated "warning" "API Limited"
                    "The AI service is experiencing limitations"
                    (display "warning" "API Limited" b2)))
      | Rejects e =>
          (Ok false,
           snd (tryNextEndpoint cfg net
                  (snd (toast_if_authenticated "error" "API Connection Failed"
                          "Could not connect to AI service"
                          (display "offline"
                             (if String.eqb (name e) "AbortError"
                              then "Connection Timeout"
                              else if includes (message e) "NetworkError"
                              then "Network Error" else "AI Offline") b2)))))
      end.
Proof.
  unfold checkApiStatus. unfold bind at 1.
  rewrite getApiEndpoint_run. cbn [fst snd].
  pose proof (same_display_getApiEndpoint cfg b) as Hd1.
  destruct (getApiEndpoint_fields cfg b) as (Ha1 & Hp1 & _ & Ht1 & Hf1).
  rewrite getApiEndpoint_run in Hd1, Ha1, Hp1, Ht1, Hf1.
  cbn [snd] in Hd1, Ha1, Hp1, Ht1, Hf1. cbn zeta in Ha1, Hp1, Ht1, Hf1.
  set (b1 := if item_missing (apiEndpoint b) then _ else b) in *.
  set (endpoint := resolve cfg (hostname b) (apiEndpoint b)) in *.
  exists (add_fetch (endpoint, probe_body) (display "warning" "Checking API..." b1)).
  cbn [fetched apiEndpoint toasts add_fetch].
  rewrite fetched_display, apiEndpoint_display, toasts_display.
  split; [by rewrite Hf1|]. split; [done|].
  split; [by rewrite <- Hp1, <- (page_display "warning" "Checking API..." b1)|].
  split; [done|].
  split.
  { apply same_display_add_fetch.
    eapply same_display_trans; [exact Hd1|apply same_display_display]. }
  unfold try_catch. unfold bind at 1. rewrite updateConnectionStatus_run.
  unfold bind at 1. rewrite fetch_run, fetched_display, Hf1.
  destruct (net _ _ _) as [e|r].
  - unfold bind at 1. cbn [is_abort is_network_error].
    set (text := if String.eqb (name e) "AbortError" then "Connection Timeout"
                 else if includes (message e) "NetworkError"
                 then "Network Error" else "AI Offline").
    assert ((if String.eqb (name e) "AbortError"
             then updateConnectionStatus "offline" "Connection Timeout"
             else if includes (message e) "NetworkError"
             then updateConnectionStatus "offline" "Network Error"
             else updateConnectionStatus "offline" "AI Offline") =
            updateConnectionStatus "offline" text) as ->.
    { subst text. destruct (String.eqb (name e) "AbortError");
        [|destruct (includes (message e) "NetworkError")]; reflexivity. }
    rewrite updateConnectionStatus_run. unfold bind at 1.
    rewrite toast_if_authenticated_run. cbn [snd].
    unfold bind, detached, ret. reflexivity.
  - destruct (ok r).
    + unfold bind, ret. by rewrite updateConnectionStatus_run.
    + unfold bind at 1. rewrite updateConnectionStatus_run.
      unfold bind at 1. rewrite toast_if_authenticated_run. reflexivity.
Qed.


Lemma toast_if_authenticated_keeps type title text b :
  let b' := snd (toast_if_authenticated type title text b) in
  fetched b' = fetched b /\ apiEndpoint b' = apiEndpoint b /\
  page b' = page b /\ status_view b' = status_view b /\
  toasts b' =
    toasts b ++
    (if showToast b && authenticated b then [(type, title, text)] else []).
Proof.
  rewrite toast_if_authenticated_run. cbn [snd].
  destruct (showToast b && authenticated b); cbn; by rewrite ?app_nil_r.
Qed.


(** X11.  A probe whose fetch is rejected, for whatever reason, returns
    [false] and leaves the status offline: "Connection Timeout" for an abort,
    "Network Error" for a message that mentions [NetworkError], "AI Offline"
    otherwise.  After the probe only failover probes are sent, never a
    generation request. *)
Theorem rejected_probe_reads_offline (b : browser) (e : js_error) :
  let endpoint := resolve cfg (hostname b) (apiEndpoint b) in
  let after := snd (checkApiStatus cfg net b) in
  net (List.length (fetched b)) endpoint probe_body = Rejects e ->
  fst (checkApiStatus cfg net b) = Ok false /\
  status_view after =
    status_view
      (display "offline"
         (if String.eqb (name e) "AbortError" then "Connection Timeout"
          else if includes (message e) "NetworkError" then "Network Error"
          else "AI Offline") b) /\
  attempts_made after = attempts_made b /\
  exists k,
    fetched after =
      fetched b ++
      probe_calls (endpoint :: take k (fallbacks_of cfg endpoint)).
Proof.
  intros endpoint after Hnet. subst after.
  destruct (checkApiStatus_start b) as (b2 & Hf & Ha & Hp & Ht & Hd & ->).
  fold endpoint in Hf, Ha |- *. rewrite Hnet. cbn [fst snd].
  set (text := if String.eqb (name e) "AbortError" then "Connection Timeout"
               else if includes (message e) "NetworkError" then "Network Error"
               else "AI Offline").
  destruct (toast_if_authenticated_keeps "error" "API Connection Failed"
              "Could not connect to AI service" (display "offline" text b2))
    as (Hf3 & Ha3 & Hp3 & Hs3 & _).
  cbn zeta in *.
  set (b3 := snd (toast_if_authenticated _ _ _ _)) in *.
  rewrite fetched_display in Hf3. rewrite apiEndpoint_display in Ha3.
  rewrite page_display in Hp3.
  assert (resolve cfg (hostname b3) (apiEndpoint b3) = endpoint) as Hres.
  { rewrite (page_hostname b b3) by congruence.
    rewrite Ha3, Ha. apply resolve_idem. }
  destruct (tryNextEndpoint_result b3) as (ep & b4 & k & -> & _ & _ & Hf4 & Hs4 & _).
  cbn zeta in Hf4. rewrite Hres in Hf4. cbn [snd].
  assert (fetched b4 =
          fetched b ++ probe_calls (endpoint :: take k (fallbacks_of cfg endpoint)))
    as Hfinal.
  { rewrite Hf4, Hf3, Hf, <- app_assoc. done. }
  split; [done|].
  split; [rewrite Hs4, Hs3; by apply display_same|].
  split.
  - unfold attempts_made. rewrite Hfinal, List.filter_app, length_app.
    by rewrite (no_attempts_filter _ (probe_calls_not_attempts _)), Nat.add_0_r.
  - by exists k.
Qed.

(** X12.  When the probe is rejected and one of the fallbacks then answers
    its probe, the session's endpoint is that fallback from then on, while
    the probe still returns [false] and the status still reads offline. *)
Theorem rejected_probe_switches_endpoint
    (b : browser) (e : js_error) (pre : list string) (f : string)
    (post : list string) :
  let endpoint := resolve cfg (hostname b) (apiEndpoint b) in
  let start := List.length (fetched b) in
  let after := snd (checkApiStatus cfg net b) in
  net start endpoint probe_body = Rejects e ->
  fallbacks_of cfg endpoint = pre ++ f :: post ->
  no_probe_succeeds net (S start) pre = true ->
  probe_succeeds (net (S start + List.length pre)%nat f probe_body) = true ->
  fst (checkApiStatus cfg net b) = Ok false /\
  apiEndpoint after = Some f /\
  fetched after = fetched b ++ probe_calls (endpoint :: pre ++ [f]) /\
  exists text,
    In text ["Connection Timeout"; "Network Error"; "AI Offline"] /\
    status_view after = status_view (display "offline" text b).
Proof.
  intros endpoint start after Hnet Hfbs Hpre Hfound. subst after.
  destruct (checkApiStatus_start b) as (b2 & Hf & Ha & Hp & Ht & Hd & ->).
  fold endpoint start in Hf, Ha |- *. rewrite Hnet. cbn [fst snd].
  set (text := if String.eqb (name e) "AbortError" then "Connection Timeout"
               else if includes (message e) "NetworkError" then "Network Error"
               else "AI Offline").
  destruct (toast_if_authenticated_keeps "error" "API Connection Failed"
              "Could not connect to AI service" (display "offline" text b2))
    as (Hf3 & Ha3 & Hp3 & Hs3 & _).
  cbn zeta in *.
  set (b3 := snd (toast_if_authenticated _ _ _ _)) in *.
  rewrite fetched_display in Hf3. rewrite apiEndpoint_display in Ha3.
  rewrite page_display in Hp3.
  assert (resolve cfg (hostname b3) (apiEndpoint b3) = endpoint) as Hres.
  { rewrite (page_hostname b b3) by congruence.
    rewrite Ha3, Ha. apply resolve_idem. }
  assert (List.length (fetched b3) = S start) as Hlen.
  { rewrite Hf3, Hf, length_app. cbn. subst start. lia. }
  destruct (tryNextEndpoint_found cfg net b3 pre f post)
    as (b4 & -> & Ha4 & Hf4 & _ & Hs4); [by rewrite Hres|by rewrite Hlen..|].
  cbn [snd]. split; [done|]. split; [done|].
  split; [rewrite Hf4, Hf3, Hf, <- app_assoc; done|].
  exists text. split.
  - subst text. destruct (String.eqb (name e) "AbortError");
      [|destruct (includes (message e) "NetworkError")]; cbn; auto.
  - rewrite Hs4, Hs3. by apply display_same.
Qed.

End Failover.


Lemma rejected_probe_reads_offline_witness :
  fst (checkApiStatus ApiConfig all_down remote_session) = Ok false /\
  status_view (snd (checkApiStatus ApiConfig all_down remote_session)) =
    status_view (display "offline" "AI Offline" remote_session) /\
  attempts_made (snd (checkApiStatus ApiConfig all_down remote_session)) =
    attempts_made remote_session.
Proof.
  destruct (rejected_probe_reads_offline ApiConfig all_down remote_session
              {| name := "TypeError"; message := "Failed to fetch" |})
    as (H1 & H2 & H3 & _); [reflexivity|].
  split; [exact H1|]. split; [exact H2|exact H3].
Defined.

Lemma rejected_probe_switches_endpoint_witness :
  fst (checkApiStatus ApiConfig recovering remote_session) = Ok false /\
  apiEndpoint (snd (checkApiStatus ApiConfig recovering remote_session)) =
    Some "http://192.168.1.50:11434/api/generate".
Proof.
  destruct (rejected_probe_switches_endpoint ApiConfig recovering
              remote_session
              {| name := "TypeError"; message := "Failed to fetch" |}
              [] "http://192.168.1.50:11434/api/generate" [])
    as (H1 & H2 & _); [reflexivity..|].
  split; [exact H1|exact H2].
Defined.

(** *** The generation call, for any network *)

Section Call.

Variable cfg : api_config.
Variable net : network.

Lemma attempt_error_none endpoint rb n :
  attempt_error (net n endpoint rb) = None ->
  exists r d,
    net n endpoint rb = Resolves r /\ ok r = true /\ body r = Json d /\
    truthy (error d) = false.
Proof.
  unfold attempt_error. intros E.
  destruct (net _ _ _) as [e'|r]; [discriminate|].
  destruct (ok r) eqn:Hok; [|discriminate]. cbn [negb] in E.
  destruct (body r) as [e'|d] eqn:Hbody; [discriminate|].
  destruct (truthy (error d)) eqn:Herr; [discriminate|].
  by exists r, d.
Qed.

Lemma attempts_loop_outcome maxAttempts rb :
  (forall endpoint, is_attempt (endpoint, rb) = true) ->
  forall fuel endpoint attempts b,
    (maxAttempts - attempts <= fuel)%nat ->
    exists o b' n,
      attempts_loop cfg net fuel maxAttempts rb endpoint attempts b = (o, b') /\
      attempts_made b' = (attempts_made b + n)%nat /\
      (n <= maxAttempts - attempts)%nat /\
      match o with
      | Ok (Returned d) =>
          (1 <= n)%nat /\
          status_view b' = status_view (display "online" "AI Online" b) /\
          exists before url r,
            fetched b' = before ++ [(url, rb)] /\
            net (List.length before) url rb = Resolves r /\
            ok r = true /\ body r = Json d /\ truthy (error d) = false
      | Ok ReturnedUndefined => (maxAttempts <= attempts)%nat /\ b' = b
      | Ok Unfinished => False
      | Throw e =>
          (attempts < maxAttempts)%nat /\ n = (maxAttempts - attempts)%nat /\
          status_view b' = status_view (display "offline" "Connection Failed" b)
      end.
Proof.
  intros Hrb. induction fuel as [|fuel IH]; intros endpoint attempts b Hfuel.
  { rewrite attempts_loop_exit by lia. exists (Ok ReturnedUndefined), b, 0%nat.
    split; [done|]. split; [lia|]. split; [lia|]. split; [lia|done]. }
  destruct (Nat.lt_ge_cases attempts maxAttempts) as [Hlt|Hge].
  2:{ rewrite attempts_loop_exit by lia. exists (Ok ReturnedUndefined), b, 0%nat.
      split; [done|]. split; [lia|]. split; [lia|]. done. }
  rewrite attempts_loop_step by done.
  destruct (attempt_error (net (List.length (fetched b)) endpoint rb)) as [e|] eqn:He.
  - rewrite (attempt_fails _ _ _ _ _ He).
    assert (attempts_made (add_fetch (endpoint, rb) b) = S (attempts_made b)) as Hone.
    { unfold attempts_made. cbn [fetched add_fetch].
      rewrite (count_attempts (fetched b) [] (endpoint, rb)); auto. }
    destruct (recover_run cfg net maxAttempts endpoint attempts e
                (add_fetch (endpoint, rb) b))
      as (next & b2 & probes & Hf & Hall & [(Hlast & -> & Hview)|(Hmore & -> & Hd)]).
    + exists (Throw e), b2, 1%nat. split; [done|].
      split.
      { unfold attempts_made in *. rewrite Hf, List.filter_app, length_app.
        rewrite (no_attempts_filter _ Hall). cbn [List.length]. lia. }
      split; [lia|]. split; [done|]. split; [lia|].
      rewrite Hview. apply display_same. by apply same_display_view.
    + destruct (IH next (S attempts) b2) as (o & b' & n & Hrun & Hcount & Hn & Ho); [lia|].
      assert (attempts_made b2 = S (attempts_made b)) as Htwo.
      { unfold attempts_made in *. rewrite Hf, List.filter_app, length_app.
        rewrite (no_attempts_filter _ Hall). cbn [List.length]. lia. }
      assert (same_display b b2) as Hd'.
      { eapply same_display_trans; [|exact Hd]. by apply same_display_view. }
      exists o, b', (S n). split; [done|]. split; [lia|]. split; [lia|].
      destruct o as [[d| |]|e']; [| |done|].
      * destruct Ho as (Hn1 & Hv & Hlast). split; [lia|]. split; [|done].
        rewrite Hv. by apply display_same.
      * lia.
      * destruct Ho as (Ha & -> & Hv). split; [done|]. split; [lia|].
        rewrite Hv. by apply display_same.
  - destruct (attempt_error_none _ _ _ He) as (r & d & Hnet & Hok & Hbody & Herr).
    rewrite (attempt_succeeds net _ _ _ _ _ Hnet Hok Hbody Herr).
    eexists _, _, 1%nat. split; [reflexivity|].
    split.
    { unfold attempts_made. rewrite fetched_display. cbn [fetched add_fetch].
      rewrite (count_attempts (fetched b) [] (endpoint, rb)); auto. lia. }
    split; [lia|]. split; [lia|]. split.
    { apply display_same. by apply same_display_view. }
    exists (fetched b), endpoint, r. rewrite fetched_display. done.
Qed.


(** X14.  With at least one retry configured, a call whose first fetch is
    answered with an OK status and a body without an error returns that body
    after this one fetch: no probe is sent, no notification shown, the
    session keeps the endpoint it resolved to, and the status reads online. *)
Theorem first_attempt_success (model prompt : string) (options : call_options)
    (b : browser) (r : http_response) (d : data) :
  let requestBody := build_request model prompt options in
  let endpoint := resolve cfg (hostname b) (apiEndpoint b) in
  let after := snd (callOllamaApi cfg net model prompt options b) in
  (1 <= retryCount (settings cfg))%nat ->
  net (List.length (fetched b)) endpoint requestBody = Resolves r ->
  ok r = true -> body r = Json d -> truthy (error d) = false ->
  fst (callOllamaApi cfg net model prompt options b) = Ok (Returned d) /\
  fetched after = fetched b ++ [(endpoint, requestBody)] /\
  apiEndpoint after = Some endpoint /\
  toasts after = toasts b /\
  status_view after = status_view (display "online" "AI Online" b).
Proof.
  intros requestBody endpoint after Hr Hnet Hok Hbody Herr. subst after.
  unfold callOllamaApi, bind. rewrite getApiEndpoint_run. cbn zeta.
  destruct (getApiEndpoint_fields cfg b) as (Ha1 & _ & Hs1 & Ht1 & Hf1).
  rewrite getApiEndpoint_run in Ha1, Hs1, Ht1, Hf1.
  cbn [snd] in Ha1, Hs1, Ht1, Hf1. cbn zeta in Ha1, Hs1, Ht1, Hf1.
  set (b1 := if item_missing (apiEndpoint b) then _ else b) in *.
  fold endpoint requestBody.
  destruct (retryCount (settings cfg) * 2)%nat as [|fuel] eqn:HM; [lia|].
  rewrite attempts_loop_step by lia.
  rewrite (attempt_succeeds net endpoint requestBody b1 r d); try done.
  2:{ by rewrite Hf1. }
  cbn [fst snd]. rewrite fetched_display, apiEndpoint_display, toasts_display.
  cbn [fetched apiEndpoint toasts add_fetch].
  split; [done|]. split; [by rewrite Hf1|]. split; [done|]. split; [done|].
  apply display_same. apply same_display_add_fetch. by apply same_display_view.
Qed.

End Call.

Lemma first_attempt_success_witness :
  fst (callOllamaApi ApiConfig healthy "phi:latest" "hi" no_options remote_session) =
    Ok (Returned {| error := JsUndefined; response := "ok" |}) /\
  fetched
    (snd (callOllamaApi ApiConfig healthy "phi:latest" "hi" no_options
            remote_session)) =
    [("https://ollama.mhrpci.site/api/generate",
      build_request "phi:latest" "hi" no_options)].
Proof.
  destruct (first_attempt_success ApiConfig healthy "phi:latest" "hi" no_options
              remote_session
              {| status := 200;
                 body := Json {| error := JsUndefined; response := "ok" |} |}
              {| error := JsUndefined; response := "ok" |})
    as (H1 & H2 & _); [cbn; lia | reflexivity..|].
  split; [exact H1|exact H2].
Defined.

(** *** A call while every endpoint is down *)

Lemma retries_used_up_twice r a :
  (1 <= r)%nat -> (S a <= r * 2)%nat ->
  retries_used_up (S a) r = (S a =? r)%nat || (S a =? r * 2)%nat.
Proof.
  intros Hr Ha. unfold retries_used_up. destruct r as [|r']; [lia|].
  set (r := S r') in *.
  destruct (Nat.eqb_spec (S a mod r) 0) as [H|H].
  - apply Nat.Div0.mod_divides in H as [c Hc].
    symmetry. apply orb_true_iff.
    assert (c = 1 \/ c = 2)%nat as [->| ->] by nia;
      [left|right]; apply Nat.eqb_eq; lia.
  - symmetry. apply orb_false_iff.
    split; apply Nat.eqb_neq; intros Heq; apply H; rewrite Heq.
    + apply Nat.Div0.mod_same.
    + rewrite Nat.mul_comm. apply Nat.Div0.mod_mul.
Qed.

Lemma recover_last_switch cfg net maxAttempts endpoint attempts e b next b1 :
  retries_used_up (S attempts) (retryCount (settings cfg)) = true ->
  (maxAttempts <= S attempts)%nat ->
  tryNextEndpoint cfg net b = (Ok next, b1) ->
  recover cfg net maxAttempts endpoint attempts e b =
    (Throw e,
     display "offline" "Connection Failed"
       (display "warning" "Switching endpoints..." b1)).
Proof.
  intros Hr Hle Hnext. unfold recover. cbn zeta. rewrite Hr.
  destruct (Nat.leb_spec maxAttempts (S attempts)) as [_|]; [|lia].
  unfold bind, ret, throw. by rewrite Hnext, !updateConnectionStatus_run.
Qed.

Section AllDown.

Variable cfg : api_config.
Variable net : network.
Variable rb : request_body.
Variable host : string.
Variable item : option string.

Hypothesis retries : (1 <= retryCount (settings cfg))%nat.
Hypothesis attempts_fail : forall i url, attempt_error (net i url rb) <> None.
Hypothesis probes_fail : forall i url, probe_succeeds (net i url probe_body) = false.

Lemma no_probe_all l : forall n, no_probe_succeeds net n l = true.
Proof.
  induction l as [|e l IH]; intros n; [done|].
  cbn [no_probe_succeeds]. by rewrite probes_fail, IH.
Qed.

Lemma all_down_round b :
  hostname b = host ->
  apiEndpoint b = Some (resolve cfg host item) ->
  exists b',
    tryNextEndpoint cfg net b = (Ok (resolve cfg host item), b') /\
    fetched b' =
      fetched b ++ probe_calls (fallbacks_of cfg (resolve cfg host item)) /\
    hostname b' = host /\
    apiEndpoint b' = Some (resolve cfg host item) /\
    toasts b' = toasts b.
Proof.
  intros Hh Ha.
  assert (resolve cfg (hostname b) (apiEndpoint b) = resolve cfg host item) as Hres
    by (rewrite Hh, Ha; apply resolve_idem).
  destruct (tryNextEndpoint_none cfg net b) as (b' & Hrun & Ha' & Hf' & Ht' & Hp' & _).
  { apply no_probe_all. }
  rewrite Hres in *. exists b'. split; [done|]. split; [done|].
  split; [by rewrite (page_hostname _ _ Hp')|done].
Qed.

Lemma all_down_loop :
  forall fuel attempts b,
    (attempts < retryCount (settings cfg) * 2)%nat ->
    (retryCount (settings cfg) * 2 - attempts <= fuel)%nat ->
    hostname b = host ->
    apiEndpoint b = Some (resolve cfg host item) ->
    exists e b' calls,
      attempts_loop cfg net fuel (retryCount (settings cfg) * 2) rb
        (resolve cfg host item) attempts b = (Throw e, b') /\
      fetched b' = fetched b ++ calls /\
      Forall (fun c => c = (resolve cfg host item, rb) \/
                       In c (probe_calls (fallbacks_of cfg (resolve cfg host item))))
        calls /\
      List.length calls =
        (retryCount (settings cfg) * 2 - attempts +
         (if (attempts <? retryCount (settings cfg))%nat then 2 else 1) *
         List.length (fallbacks_of cfg (resolve cfg host item)))%nat /\
      apiEndpoint b' = Some (resolve cfg host item) /\
      toasts b' = toasts b.
Proof.
  set (r := retryCount (settings cfg)) in *.
  set (primary := resolve cfg host item).
  set (fbs := fallbacks_of cfg primary).
  assert (Forall (fun c => c = (primary, rb) \/ In c (probe_calls fbs))
            (probe_calls fbs)) as Hprobes.
  { apply Forall_forall. intros c Hc. right. by apply list_elem_of_In. }
  assert (List.length (probe_calls fbs) = List.length fbs) as Hlen
    by apply List.length_map.
  induction fuel as [|fuel IH]; intros attempts b Hlt Hfuel Hh Ha; [lia|].
  rewrite attempts_loop_step by done.
  destruct (attempt_error (net (List.length (fetched b)) primary rb)) as [e|] eqn:He;
    [|by apply attempts_fail in He].
  rewrite (attempt_fails _ _ _ _ _ He).
  set (b1 := add_fetch (primary, rb) b).
  pose proof (retries_used_up_twice r attempts retries ltac:(lia)) as Hmod.
  destruct (Nat.eqb_spec (S attempts) (r * 2)) as [Hend|Hnot].
  - (* the last attempt *)
    rewrite orb_true_r in Hmod.
    destruct (all_down_round b1) as (b2 & Hrun & Hf2 & Hh2 & Ha2 & Ht2); [done..|].
    rewrite (recover_last_switch cfg net (r * 2) primary attempts e b1 primary b2);
      [|exact Hmod|lia|exact Hrun].
    eexists e, _, ((primary, rb) :: probe_calls fbs).
    split; [reflexivity|].
    rewrite !fetched_display, !apiEndpoint_display, !toasts_display, Hf2.
    cbn [fetched add_fetch b1]. rewrite <- app_assoc.
    split; [done|]. split; [constructor; [by left|done]|].
    split.
    { cbn [List.length]. rewrite Hlen.
      destruct (Nat.ltb_spec attempts r); lia. }
    split; [done|]. by rewrite Ht2.
  - destruct (Nat.eqb_spec (S attempts) r) as [Hmid|Hnot'].
    + (* the retries of the first round are used up *)
      cbn [orb] in Hmod.
      destruct (all_down_round b1) as (b2 & Hrun & Hf2 & Hh2 & Ha2 & Ht2); [done..|].
      rewrite (recover_switch cfg net (r * 2) primary attempts e b1 primary b2);
        [|exact Hmod|lia|exact Hrun].
      destruct (IH (S attempts) (display "warning" "Switching endpoints..." b2))
        as (e' & b' & calls & Hloop & Hf' & Hall & Hcount & Ha' & Ht');
        [lia | lia | by rewrite hostname_display | by rewrite apiEndpoint_display |].
      exists e', b', ((primary, rb) :: probe_calls fbs ++ calls).
      split; [done|].
      rewrite fetched_display, Hf2 in Hf'. cbn [fetched add_fetch b1] in Hf'.
      split; [by rewrite Hf', <- !app_assoc|].
      split; [constructor; [by left|by apply Forall_app]|].
      split.
      { cbn [List.length]. rewrite length_app, Hcount, Hlen.
        destruct (Nat.ltb_spec attempts r); destruct (Nat.ltb_spec (S attempts) r); lia. }
      split; [done|]. by rewrite Ht', toasts_display, Ht2.
    + (* a retry on the same endpoint *)
      cbn [orb] in Hmod.
      rewrite (recover_retry cfg net) by (first [exact Hmod | lia]).
      destruct (IH (S attempts) (display "warning" "Retrying connection..." b1))
        as (e' & b' & calls & Hloop & Hf' & Hall & Hcount & Ha' & Ht');
        [lia | lia | by rewrite hostname_display | by rewrite apiEndpoint_display |].
      exists e', b', ((primary, rb) :: calls).
      split; [done|].
      rewrite fetched_display in Hf'. cbn [fetched add_fetch b1] in Hf'.
      split; [by rewrite Hf', <- !app_assoc|].
      split; [constructor; [by left|done]|].
      split.
      { cbn [List.length]. rewrite Hcount.
        destruct (Nat.ltb_spec attempts r); destruct (Nat.ltb_spec (S attempts) r); lia. }
      split; [done|]. by rewrite Ht', toasts_display.
Qed.

End AllDown.

(** X15.  While no endpoint answers anything (every attempt fails and no
    probe is answered with an OK status), a call with at least one retry
    configured sends all its [retryCount * 2] attempts to the one endpoint
    the session resolved to; the fallbacks only ever receive probes, in two
    rounds.  The call makes [retryCount * 2] fetches plus two for every
    fallback before it throws, shows no notification, and the session keeps
    its endpoint. *)
Theorem all_down_call_stays_on_primary
    (cfg : api_config) (net : network) (model prompt : string)
    (options : call_options) (b : browser) :
  let requestBody := build_request model prompt options in
  let primary := resolve cfg (hostname b) (apiEndpoint b) in
  let fallbacks := fallbacks_of cfg primary in
  let after := snd (callOllamaApi cfg net model prompt options b) in
  (1 <= retryCount (settings cfg))%nat ->
  (forall i url, attempt_error (net i url requestBody) <> None) ->
  (forall i url, probe_succeeds (net i url probe_body) = false) ->
  exists calls,
    fetched after = fetched b ++ calls /\
    Forall (fun c => c = (primary, requestBody) \/ In c (probe_calls fallbacks))
      calls /\
    List.length calls =
      (retryCount (settings cfg) * 2 + 2 * List.length fallbacks)%nat /\
    apiEndpoint after = Some primary /\
    toasts after = toasts b.
Proof.
  intros requestBody primary fallbacks after Hr Hfail Hprobe. subst after.
  unfold callOllamaApi, bind. rewrite getApiEndpoint_run. cbn zeta.
  destruct (getApiEndpoint_fields cfg b) as (Ha1 & Hp1 & _ & Ht1 & Hf1).
  rewrite getApiEndpoint_run in Ha1, Hp1, Ht1, Hf1.
  cbn [snd] in Ha1, Hp1, Ht1, Hf1. cbn zeta in Ha1, Hp1, Ht1, Hf1.
  set (b1 := if item_missing (apiEndpoint b) then _ else b) in *.
  destruct (all_down_loop cfg net requestBody (hostname b) (apiEndpoint b)
              Hr Hfail Hprobe
              (retryCount (settings cfg) * 2)%nat 0%nat b1)
    as (e & b' & calls & Hloop & Hf & Hall & Hcount & Ha & Ht);
    [lia | lia | by apply page_hostname | done |].
  fold requestBody. rewrite Hloop. cbn [snd]. exists calls.
  split; [by rewrite Hf, Hf1|]. split; [done|].
  split.
  { rewrite Hcount. subst fallbacks primary.
    destruct (Nat.ltb_spec 0 (retryCount (settings cfg))); lia. }
  split; [done|]. by rewrite Ht.
Qed.

Lemma all_down_call_stays_on_primary_witness :
  exists calls,
    fetched
      (snd (callOllamaApi ApiConfig all_down "phi:latest" "hi" no_options
              remote_session)) = fetched remote_session ++ calls /\
    List.length calls = 6%nat /\
    apiEndpoint
      (snd (callOllamaApi ApiConfig all_down "phi:latest" "hi" no_options
              remote_session)) =
      Some "https://ollama.mhrpci.site/api/generate".
Proof.
  destruct (all_down_call_stays_on_primary ApiConfig all_down "phi:latest" "hi"
              no_options remote_session)
    as (calls & H1 & _ & H3 & H4 & _);
    [cbn; lia | discriminate | reflexivity |].
  exists calls. split; [exact H1|]. split; [exact H3|exact H4].
Defined.

End ClientExtras.

(** ** Properties of the chat page *)

Module ChatTheory.

Import Client ClientSamples ClientTheory ClientExtras Chat.

Lemma slice_last_older {A} (n : nat) (older recent : list A) :
  (n <= List.length recent)%nat ->
  slice_last n (older ++ recent) = slice_last n recent.
Proof.
  intros Hn. unfold slice_last.
  rewrite length_app, List.skipn_app.
  rewrite List.skipn_all2 by lia. cbn [app]. f_equal. lia.
Qed.

Lemma slice_last_snoc {A} (n : nat) (l : list A) (x : A) :
  slice_last (S n) (l ++ [x]) = slice_last n l ++ [x].
Proof.
  unfold slice_last. rewrite length_app, List.skipn_app. cbn [List.length].
  replace (List.length l + 1 - S n)%nat with (List.length l - n)%nat by lia.
  replace (List.length l - n - List.length l)%nat with 0%nat by lia.
  reflexivity.
Qed.

Lemma concat_snoc sep (l : list string) (x : string) :
  exists head, String.concat sep (l ++ [x]) = String.append head x.
Proof.
  induction l as [|y l [head IH]].
  - by exists EmptyString.
  - exists (String.append y (String.append sep head)).
    cbn [app]. change (String.concat sep (y :: l ++ [x]))
      with (match l ++ [x] with
            | [] => y
            | _ :: _ => String.append y (String.append sep (String.concat sep (l ++ [x])))
            end).
    destruct (l ++ [x]) eqn:E; [by destruct l|].
    by rewrite IH, !append_assoc.
Qed.

(** X16.  With a history of at most six entries the prompt joins the
    lines of all of them, with a longer one those of the last six and of no
    other entry, and with an empty one it opens with the introduction of the
    assistant instead.  In every case it ends with the new message as a user
    line followed by the cue for the assistant. *)
Theorem context_is_the_last_six
    (older recent : list chat_message) (message : string) :
  let ending :=
    String.append "User: " (String.append message (String.append nl "Assistant:")) in
  (List.length recent = 6%nat ->
   buildContextPrompt (older ++ recent) message =
     String.append (String.concat nl (List.map line recent))
       (String.append nl ending)) /\
  ((0 < List.length recent <= 6)%nat ->
   buildContextPrompt recent message =
     String.append (String.concat nl (List.map line recent))
       (String.append nl ending)) /\
  ((6 <= List.length recent)%nat ->
   buildContextPrompt (older ++ recent) message =
     buildContextPrompt recent message) /\
  buildContextPrompt [] message =
    String.append preamble (String.append nl (String.append nl ending)) /\
  exists head,
    buildContextPrompt (older ++ recent) message = String.append head ending.
Proof.
  cbn zeta.
  assert (forall l : list chat_message,
            (0 < List.length l <= 6)%nat ->
            buildContextPrompt l message =
              String.append (String.concat nl (List.map line l))
                (String.append nl
                   (String.append "User: "
                      (String.append message (String.append nl "Assistant:")))))
    as Hshort.
  { intros l Hl. unfold buildContextPrompt, slice_last.
    destruct (Nat.ltb_spec 0 (List.length l)); [|lia].
    by replace (List.length l - 6)%nat with 0%nat by lia. }
  assert ((6 <= List.length recent)%nat ->
          buildContextPrompt (older ++ recent) message =
            buildContextPrompt recent message) as Holder.
  { intros Hlen. unfold buildContextPrompt. rewrite slice_last_older by done.
    rewrite length_app.
    destruct (Nat.ltb_spec 0 (List.length older + List.length recent)); [|lia].
    destruct (Nat.ltb_spec 0 (List.length recent)); [done|lia]. }
  split; [|split; [|split; [|split]]].
  - intros Hsix. rewrite Holder by lia. apply Hshort. lia.
  - apply Hshort.
  - exact Holder.
  - reflexivity.
  - unfold buildContextPrompt.
    destruct (0 <? List.length (older ++ recent))%nat; eexists;
      by rewrite <- !append_assoc.
Qed.

Lemma context_is_the_last_six_witness :
  let turn n := {| role := "user"; content := n |} in
  let recent := [turn "1"; turn "2"; turn "3"; turn "4"; turn "5"; turn "6"] in
  buildContextPrompt ([turn "0"] ++ recent) "hi" =
    String.append (String.concat nl (List.map line recent))
      (String.append nl
         (String.append "User: " (String.append "hi" (String.append nl "Assistant:")))).
Proof.
  cbn zeta.
  apply (context_is_the_last_six [{| role := "user"; content := "0" |}]
           [{| role := "user"; content := "1" |}; {| role := "user"; content := "2" |};
            {| role := "user"; content := "3" |}; {| role := "user"; content := "4" |};
            {| role := "user"; content := "5" |}; {| role := "user"; content := "6" |}]
           "hi").
  reflexivity.
Defined.

Section Page.

Variable trim : string -> string.
Variable cfg : api_config.
Variable net : network.

Lemma callOllamaApi_budget model prompt options b :
  exists o b' n,
    callOllamaApi cfg net model prompt options b = (o, b') /\
    attempts_made b' = (attempts_made b + n)%nat /\
    match o with
    | Ok (Returned d) => (1 <= n <= retryCount (settings cfg) * 2)%nat
    | Ok Unfinished => False
    | _ => n = (retryCount (settings cfg) * 2)%nat
    end /\
    ((1 <= retryCount (settings cfg))%nat ->
     fetched b' !! List.length (fetched b) =
       Some (resolve cfg (hostname b) (apiEndpoint b),
             build_request model prompt options)).
Proof.
  unfold callOllamaApi, bind. rewrite getApiEndpoint_run. cbn zeta.
  destruct (getApiEndpoint_fields cfg b) as (_ & _ & _ & _ & Hf1).
  rewrite getApiEndpoint_run in Hf1. cbn [snd] in Hf1. cbn zeta in Hf1.
  set (b1 := if item_missing (apiEndpoint b) then _ else b) in *.
  destruct (attempts_loop_outcome cfg net (retryCount (settings cfg) * 2)
              (build_request model prompt options) (fun _ => eq_refl)
              (retryCount (settings cfg) * 2)%nat
              (resolve cfg (hostname b) (apiEndpoint b)) 0%nat b1)
    as (o & b' & n & Hrun & Hcount & Hn & Ho); [lia|].
  destruct (attempts_loop_calls cfg net (retryCount (settings cfg) * 2)
              (build_request model prompt options)
              (retryCount (settings cfg) * 2)%nat
              (resolve cfg (hostname b) (apiEndpoint b)) 0%nat b1)
    as (o' & b'' & calls & Hrun' & _ & Hf & _ & Hfirst); [lia|].
  rewrite Hrun in Hrun'. injection Hrun' as <- <-.
  exists o, b', n. split; [done|].
  split; [rewrite Hcount; unfold attempts_made; by rewrite Hf1|].
  split.
  - destruct o as [[d| |]|e]; [| |done|].
    + destruct Ho as (H1 & _). lia.
    + destruct Ho as (H1 & _). lia.
    + destruct Ho as (_ & -> & _). lia.
  - intros Hr. rewrite Hf, Hf1.
    rewrite lookup_app_r by lia. rewrite Nat.sub_diag. apply Hfirst. lia.
Qed.

(** X17.  A message that [sendMessage] accepts is put into the history
    before the prompt is built.  So the prompt is never the one with the
    assistant's introduction: it ends with the message twice, once as the
    last history line and once as the new user line, and with at least one
    retry configured this is the prompt of the first fetch. *)
Theorem sent_prompt_repeats_the_message (p : page) :
  let message := trim (messageInput p) in
  let after := sendMessage trim cfg net p in
  string_nonempty message = true ->
  isGenerating p = false ->
  (1 <= retryCount (settings cfg))%nat ->
  exists head,
    fetched (session after) !! List.length (fetched (session p)) =
      Some (resolve cfg (hostname (session p)) (apiEndpoint (session p)),
            build_request (selectedModel p)
              (String.append head
                 (String.append "User: "
                    (String.append message
                       (String.append nl
                          (String.append "User: "
                             (String.append message
                                (String.append nl "Assistant:")))))))
              no_options).
Proof.
  intros message after Hne Hgen Hr. subst after.
  unfold sendMessage. fold message. rewrite Hne, Hgen. cbn [negb orb].
  set (history1 := conversationHistory p ++ [{| role := "user"; content := message |}]).
  destruct (callOllamaApi_budget (selectedModel p)
              (buildContextPrompt history1 message) no_options (session p))
    as (o & b' & n & -> & _ & _ & Hfirst).
  assert (exists head,
            buildContextPrompt history1 message =
              String.append head
                (String.append "User: "
                   (String.append message
                      (String.append nl
                         (String.append "User: "
                            (String.append message
                               (String.append nl "Assistant:"))))))) as [head Hprompt].
  { unfold buildContextPrompt. subst history1.
    rewrite length_app. cbn [List.length].
    destruct (Nat.ltb_spec 0 (List.length (conversationHistory p) + 1)); [|lia].
    rewrite (slice_last_snoc 5), List.map_app. cbn [List.map].
    destruct (concat_snoc nl (List.map line (slice_last 5 (conversationHistory p)))
                (line {| role := "user"; content := message |})) as [head ->].
    exists head. unfold line. cbn [role content].
    change (String.eqb "user" "user") with true. cbn match.
    rewrite !append_assoc. reflexivity. }
  exists head. rewrite <- Hprompt.
  destruct o as [[d| |]|e]; cbn [session]; by apply Hfirst.
Qed.


End Page.

Lemma sent_prompt_repeats_the_message_witness :
  exists head,
    fetched (session (sendMessage ascii_trim ApiConfig all_down (fresh_page " hi ")))
      !! List.length (fetched (session (fresh_page " hi "))) =
      Some ("https://ollama.mhrpci.site/api/generate",
            build_request "phi:latest"
              (String.append head
                 (String.append "User: "
                    (String.append "hi"
                       (String.append nl
                          (String.append "User: "
                             (String.append "hi"
                                (String.append nl "Assistant:")))))))
              no_options).
Proof.
  apply (sent_prompt_repeats_the_message ascii_trim ApiConfig all_down
           (fresh_page " hi ")).
  - reflexivity.
  - reflexivity.
  - cbn. lia.
Defined.


End ChatTheory.
